(** * quicktype-vscode: the "paste as types" command, embedded in Rocq

    The extension ([src/extension.ts]) reads the clipboard, asks the
    quicktype engine for generated source text and puts that text into the
    editor selection.  The embedding keeps the shape of the TypeScript:

    - the built-ins of the language ([String.prototype.repeat],
      [Array.prototype.join], [Array.prototype.sort], the [||] operator on
      strings) are in [Module JS];
    - everything the extension talks to (the language table and the engine
      of the quicktype package, the quick pick, the input box, the
      clipboard, [JSON.parse]) is a field of the record [Host];
    - an [async] function is a computation in the monad [Async]: it
      threads the [World] (the editor document and the log of calls made
      to the outside) and ends in a [Completion];
    - the engine behind [quicktype] is not part of the extension; what
      the specification says of type inference and rendering is modelled
      in [Module Core].

    Text is [string] (bytes); JavaScript compares strings by UTF-16 code
    unit, which is the byte order on the ASCII range used by the names of
    the language table. *)

From Stdlib Require Import String Ascii List Bool Arith Lia ZArith.
From stdpp Require Import base strings list gmap sorting.

Set Warnings "-register-all".
Local Open Scope string_scope.
Local Open Scope list_scope.

(* ===================================================================== *)
(** * Built-ins of the language *)
(* ===================================================================== *)

Module JS.

Definition TAB : string := String (ascii_of_nat 9) EmptyString.
Definition LF : string := String (ascii_of_nat 10) EmptyString.

(** [s.repeat(count)] for a non-negative integer [count]. *)
Fixpoint repeat (s : string) (count : nat) : string :=
  match count with
  | O => EmptyString
  | S n => s +:+ repeat s n
  end.

(** [lines.join(sep)]. *)
Definition join (sep : string) (ls : list string) : string :=
  String.concat sep ls.

(** [x || d] where [x] is a string or [undefined]: the empty string and
    [undefined] are the two falsy values. *)
Definition or_else (x : option string) (d : string) : string :=
  match x with
  | Some EmptyString => d
  | Some s => s
  | None => d
  end.

(** [x === undefined]. *)
Definition is_undefined {A : Type} (x : option A) : bool :=
  match x with
  | Some _ => false
  | None => true
  end.

(** The order of the default comparator of [sort] on strings. *)
Definition str_le (a b : string) : Prop := String.leb a b = true.

#[export] Instance str_le_dec (a b : string) : Decision (str_le a b).
Proof. unfold str_le. apply _. Defined.

(** [xs.sort()] on an array of strings. *)
Definition sort (xs : list string) : list string :=
  merge_sort str_le xs.

(** [s.substring(n)]. *)
Fixpoint drop_string (n : nat) (s : string) : string :=
  match n, s with
  | O, _ => s
  | S _, EmptyString => EmptyString
  | S m, String _ rest => drop_string m rest
  end.

(** ** [JSON.parse]

    The value it builds.  A number is kept as the exact decimal
    [mantissa * 10 ^ exponent]; [\uXXXX] escapes are stored as the UTF-8
    bytes of the code unit. *)
Inductive JSONValue : Type :=
| JNull
| JBool (b : bool)
| JNumber (mantissa exponent : Z)
| JString (s : string)
| JArray (items : list JSONValue)
| JObject (members : list (string * JSONValue)).

Definition code (c : ascii) : nat := nat_of_ascii c.
Definition chr (n : nat) : string := String (ascii_of_nat n) EmptyString.

Definition is_ws (c : ascii) : bool :=
  let n := code c in
  Nat.eqb n 32 || Nat.eqb n 9 || Nat.eqb n 10 || Nat.eqb n 13.

Fixpoint skip_ws (s : string) : string :=
  match s with
  | String c rest => if is_ws c then skip_ws rest else s
  | EmptyString => s
  end.

Definition is_digit (c : ascii) : bool :=
  Nat.leb 48 (code c) && Nat.leb (code c) 57.

(** A maximal run of decimal digits: its value on top of [acc], how
    many digits were read, and the rest of the text. *)
Fixpoint digits (s : string) (acc : Z) (count : nat) : Z * nat * string :=
  match s with
  | String c rest =>
      if is_digit c
      then digits rest (10 * acc + Z.of_nat (code c - 48))%Z (S count)
      else (acc, count, s)
  | EmptyString => (acc, count, s)
  end.

Definition hex_value (c : ascii) : option nat :=
  let n := code c in
  if Nat.leb 48 n && Nat.leb n 57 then Some (n - 48)
  else if Nat.leb 65 n && Nat.leb n 70 then Some (n - 55)
  else if Nat.leb 97 n && Nat.leb n 102 then Some (n - 87)
  else None.

Definition utf8 (u : nat) : string :=
  if Nat.ltb u 128 then chr u
  else if Nat.ltb u 2048 then chr (192 + u / 64) +:+ chr (128 + u mod 64)
  else chr (224 + u / 4096) +:+ chr (128 + (u / 64) mod 64) +:+ chr (128 + u mod 64).

Definition simple_escape (c : ascii) : option nat :=
  let n := code c in
  if Nat.eqb n 34 then Some 34          (* quote *)
  else if Nat.eqb n 92 then Some 92     (* backslash *)
  else if Nat.eqb n 47 then Some 47     (* slash *)
  else if Nat.eqb n 98 then Some 8      (* b *)
  else if Nat.eqb n 102 then Some 12    (* f *)
  else if Nat.eqb n 110 then Some 10    (* n *)
  else if Nat.eqb n 114 then Some 13    (* r *)
  else if Nat.eqb n 116 then Some 9     (* t *)
  else None.

(** The characters of a string literal after its opening quote. *)
Fixpoint string_body (s : string) : option (string * string) :=
  match s with
  | EmptyString => None
  | String c rest =>
      if Nat.eqb (code c) 34 then Some (EmptyString, rest)
      else if Nat.eqb (code c) 92 then
        match rest with
        | String e rest1 =>
            if Nat.eqb (code e) 117 then
              match rest1 with
              | String h1 (String h2 (String h3 (String h4 rest2))) =>
                  match hex_value h1, hex_value h2, hex_value h3, hex_value h4 with
                  | Some a, Some b, Some c', Some d =>
                      match string_body rest2 with
                      | Some (body, tail) =>
                          Some (utf8 (((a * 16 + b) * 16 + c') * 16 + d) +:+ body, tail)
                      | None => None
                      end
                  | _, _, _, _ => None
                  end
              | _ => None
              end
            else
              match simple_escape e with
              | Some n =>
                  match string_body rest1 with
                  | Some (body, tail) => Some (chr n +:+ body, tail)
                  | None => None
                  end
              | None => None
              end
        | EmptyString => None
        end
      else if Nat.ltb (code c) 32 then None
      else
        match string_body rest with
        | Some (body, tail) => Some (String c body, tail)
        | None => None
        end
  end.

(** [-? int frac? exp?] *)
Definition number (s : string) : option (JSONValue * string) :=
  let '(negative, s1) :=
    match s with
    | String c rest => if Nat.eqb (code c) 45 then (true, rest) else (false, s)
    | EmptyString => (false, s)
    end in
  let int_part :=
    match s1 with
    | String c rest =>
        if Nat.eqb (code c) 48 then Some (0%Z, rest)
        else if is_digit c then let '(v, _, r) := digits s1 0%Z 0 in Some (v, r)
        else None
    | EmptyString => None
    end in
  match int_part with
  | None => None
  | Some (i, s2) =>
      let frac_part :=
        match s2 with
        | String c rest =>
            if Nat.eqb (code c) 46 then
              let '(v, n, r) := digits rest i 0 in
              if Nat.eqb n 0 then None else Some (v, n, r)
            else Some (i, 0, s2)
        | EmptyString => Some (i, 0, s2)
        end in
      match frac_part with
      | None => None
      | Some (m, fraclen, s3) =>
          let exp_part :=
            match s3 with
            | String c rest =>
                if Nat.eqb (code c) 101 || Nat.eqb (code c) 69 then
                  let '(neg_exp, s4) :=
                    match rest with
                    | String sg rest' =>
                        if Nat.eqb (code sg) 45 then (true, rest')
                        else if Nat.eqb (code sg) 43 then (false, rest')
                        else (false, rest)
                    | EmptyString => (false, rest)
                    end in
                  let '(v, n, r) := digits s4 0%Z 0 in
                  if Nat.eqb n 0 then None
                  else Some ((if neg_exp then - v else v)%Z, r)
                else Some (0%Z, s3)
            | EmptyString => Some (0%Z, s3)
            end in
          match exp_part with
          | None => None
          | Some (e, s5) =>
              Some (JNumber (if negative then - m else m)%Z (e - Z.of_nat fraclen)%Z, s5)
          end
      end
  end.

(** [word] at the head of [s]. *)
Definition literal (word s : string) (v : JSONValue) : option (JSONValue * string) :=
  if String.prefix word s
  then Some (v, drop_string (String.length word) s)
  else None.

(** The elements of an array after the first one has been found to
    exist, up to and including the closing bracket. *)
Fixpoint elements (value : string -> option (JSONValue * string)) (fuel : nat) (s : string)
  : option (list JSONValue * string) :=
  match fuel with
  | O => None
  | S fuel' =>
      match value s with
      | None => None
      | Some (v, rest) =>
          match skip_ws rest with
          | String c rest' =>
              if Nat.eqb (code c) 44 then
                match elements value fuel' rest' with
                | Some (vs, tail) => Some (v :: vs, tail)
                | None => None
                end
              else if Nat.eqb (code c) 93 then Some ([v], rest')
              else None
          | EmptyString => None
          end
      end
  end.

(** The members of an object, likewise. *)
Fixpoint members (value : string -> option (JSONValue * string)) (fuel : nat) (s : string)
  : option (list (string * JSONValue) * string) :=
  match fuel with
  | O => None
  | S fuel' =>
      match skip_ws s with
      | String q rest =>
          if Nat.eqb (code q) 34 then
            match string_body rest with
            | None => None
            | Some (key, rest1) =>
                match skip_ws rest1 with
                | String colon rest2 =>
                    if Nat.eqb (code colon) 58 then
                      match value rest2 with
                      | None => None
                      | Some (v, rest3) =>
                          match skip_ws rest3 with
                          | String c rest4 =>
                              if Nat.eqb (code c) 44 then
                                match members value fuel' rest4 with
                                | Some (ms, tail) => Some ((key, v) :: ms, tail)
                                | None => None
                                end
                              else if Nat.eqb (code c) 125 then Some ([(key, v)], rest4)
                              else None
                          | EmptyString => None
                          end
                      end
                    else None
                | EmptyString => None
                end
            end
          else None
      | EmptyString => None
      end
  end.

(** One value, with the white space before it. *)
Fixpoint value (fuel : nat) (s : string) : option (JSONValue * string) :=
  match fuel with
  | O => None
  | S fuel' =>
      match skip_ws s with
      | EmptyString => None
      | String c rest as s' =>
          let n := code c in
          if Nat.eqb n 110 then literal "null" s' JNull
          else if Nat.eqb n 116 then literal "true" s' (JBool true)
          else if Nat.eqb n 102 then literal "false" s' (JBool false)
          else if Nat.eqb n 34 then
            match string_body rest with
            | Some (str, tail) => Some (JString str, tail)
            | None => None
            end
          else if Nat.eqb n 91 then
            match skip_ws rest with
            | String c' rest' =>
                if Nat.eqb (code c') 93 then Some (JArray [], rest')
                else
                  match elements (value fuel') (String.length rest) rest with
                  | Some (vs, tail) => Some (JArray vs, tail)
                  | None => None
                  end
            | EmptyString => None
            end
          else if Nat.eqb n 123 then
            match skip_ws rest with
            | String c' rest' =>
                if Nat.eqb (code c') 125 then Some (JObject [], rest')
                else
                  match members (value fuel') (String.length rest) rest with
                  | Some (ms, tail) => Some (JObject ms, tail)
                  | None => None
                  end
            | EmptyString => None
            end
          else number s'
      end
  end.

(** [JSON.parse(text)]: [None] stands for the [SyntaxError] it throws. *)
Definition JSON_parse (text : string) : option JSONValue :=
  match value (S (String.length text)) text with
  | Some (v, rest) =>
      match skip_ws rest with
      | EmptyString => Some v
      | String _ _ => None
      end
  | None => None
  end.

End JS.

(* ===================================================================== *)
(** * The editor (the part of the vscode API the extension uses) *)
(* ===================================================================== *)

Module Vscode.

(** A [Position] is kept as its offset in the document text. *)
Definition Position : Type := nat.

(** A selection runs from its anchor to its active end; [start] is the
    lesser and [end] the greater of the two. *)
Record Selection : Type := mkSelection {
  anchor : Position;
  active : Position
}.

Definition start (s : Selection) : Position := Nat.min (anchor s) (active s).
Definition end_ (s : Selection) : Position := Nat.max (anchor s) (active s).
Definition isEmpty (s : Selection) : bool := Nat.eqb (anchor s) (active s).

(** [new Range(a, b)] orders its two ends. *)
Record Range : Type := mkRange { range_start : Position; range_end : Position }.

Definition newRange (a b : Position) : Range :=
  if Nat.leb a b then mkRange a b else mkRange b a.

(** The options as the extension reads them: vscode has resolved
    [tabSize] to a number of columns by then. *)
Record TextEditorOptions : Type := mkOptions {
  insertSpaces : bool;
  tabSize : nat
}.

Record TextEditor : Type := mkEditor {
  languageId : string;
  options : TextEditorOptions;
  selection : Selection
}.

(** What the callback of [editor.edit] asks the builder to do. *)
Inductive EditOp : Type :=
| Insert (at_ : Position) (text : string)
| Replace (range : Range) (text : string).

Definition take (n : nat) (doc : string) : string := substring 0 n doc.

Definition drop (n : nat) (doc : string) : string := JS.drop_string n doc.

(** The effect of one edit on the text of the document. *)
Definition applyEdit (op : EditOp) (doc : string) : string :=
  match op with
  | Insert p text => take p doc +:+ text +:+ drop p doc
  | Replace r text => take (range_start r) doc +:+ text +:+ drop (range_end r) doc
  end.

End Vscode.

Import Vscode.

(* ===================================================================== *)
(** * The quicktype package, as seen from the extension *)
(* ===================================================================== *)

Record TargetLanguage : Type := mkLanguage {
  displayName : string;
  names : list string
}.

Inductive TypeSource : Type :=
| JSONTypeSource (name : string) (samples : list string)
| SchemaTypeSource (name : string) (schema : string)
| TypeScriptTypeSource (sources : gmap string string).

Definition sourceKind (s : TypeSource) : string :=
  match s with
  | JSONTypeSource _ _ => "json"
  | SchemaTypeSource _ _ => "schema"
  | TypeScriptTypeSource _ => "typescript"
  end.

(** The options object handed to [quicktype]. *)
Record Options : Type := mkQuicktypeOptions {
  lang : string;
  sources : list TypeSource;
  leadingComments : list string;
  rendererOptions : gmap string string;
  indentation : string
}.

Record SerializedRenderResult : Type := mkResult {
  lines : list string
}.

(** How a call of the engine ends: with a result, with a rejected promise
    (which [try ... catch] around an [await] sees), or with an exception
    raised outside the promise (which it does not see). *)
Inductive EngineOutcome : Type :=
| Rendered (result : SerializedRenderResult)
| EngineRejected (e : string)
| EngineFault (e : string).

(* ===================================================================== *)
(** * The outside world *)
(* ===================================================================== *)

Record Host : Type := mkHost {
  (** [languageNamed] and [languages] of the quicktype package *)
  languageNamed : string -> option TargetLanguage;
  languages : list TargetLanguage;
  (** the engine *)
  quicktype_engine : Options -> EngineOutcome;
  (** [JSON.parse]: [None] when it throws *)
  JSON_parse : string -> option JS.JSONValue;
  (** the clipboard, as the callback of copy-paste reports it *)
  pasteCallback : string + string;
  (** what the user answers to the quick pick and to the input box;
      [None] is [undefined], a dismissed prompt *)
  quickPickAnswer : list string -> option string;
  inputBoxAnswer : string -> option string
}.

Inductive Event : Type :=
| EvShowQuickPick (items : list string)
| EvPaste
| EvShowErrorMessage (message : string)
| EvShowInputBox (prompt : string)
| EvSendEvent (category action : string)
| EvQuicktype (opts : Options)
| EvEdit (op : EditOp).

Record World : Type := mkWorld {
  document : string;
  trace : list Event
}.

(** How an [async] function ends: it returns, its promise is rejected, or
    an exception escapes the promise chain altogether. *)
Inductive Completion (A : Type) : Type :=
| Normal (a : A)
| Rejected (e : string)
| Uncaught (e : string).

Arguments Normal {A} a.
Arguments Rejected {A} e.
Arguments Uncaught {A} e.

Definition Async (A : Type) : Type := World -> Completion A * World.

Definition ret {A : Type} (a : A) : Async A := fun w => (Normal a, w).

Definition bind {A B : Type} (m : Async A) (k : A -> Async B) : Async B :=
  fun w =>
    match m w with
    | (Normal a, w') => k a w'
    | (Rejected e, w') => (Rejected e, w')
    | (Uncaught e, w') => (Uncaught e, w')
    end.

Definition reject {A : Type} (e : string) : Async A := fun w => (Rejected e, w).
Definition fault {A : Type} (e : string) : Async A := fun w => (Uncaught e, w).

(** [try { m } catch (e) { handler e }] *)
Definition try_catch {A : Type} (m : Async A) (handler : string -> Async A) : Async A :=
  fun w =>
    match m w with
    | (Rejected e, w') => handler e w'
    | r => r
    end.

Declare Scope async_scope.
Delimit Scope async_scope with async.
Notation "x <- m ;; k" := (bind m (fun x => k))
  (at level 100, m at next level, right associativity) : async_scope.
Notation "m ;; k" := (bind m (fun _ => k))
  (at level 100, right associativity) : async_scope.
Local Open Scope async_scope.

Definition emit (e : Event) : Async unit :=
  fun w => (Normal tt, mkWorld (document w) (trace w ++ [e])).

(** The commands of the extension. *)
Inductive Command : Type :=
| PasteJSONAsTypes
| PasteJSONAsTypesAndSerialization
| PasteSchemaAsTypes
| PasteSchemaAsTypesAndSerialization
| PasteTypeScriptAsTypesAndSerialization.

Definition commandId (c : Command) : string :=
  match c with
  | PasteJSONAsTypes => "quicktype.pasteJSONAsTypes"
  | PasteJSONAsTypesAndSerialization => "quicktype.pasteJSONAsTypesAndSerialization"
  | PasteSchemaAsTypes => "quicktype.pasteJSONSchemaAsTypes"
  | PasteSchemaAsTypesAndSerialization => "quicktype.pasteJSONSchemaAsTypesAndSerialization"
  | PasteTypeScriptAsTypesAndSerialization => "quicktype.pasteTypeScriptAsTypesAndSerialization"
  end.

Section Extension.

Variable host : Host.

(** ** Calls to the outside *)

Definition showQuickPick (items : list string) : Async (option string) :=
  emit (EvShowQuickPick items) ;; ret (quickPickAnswer host items).

Definition showInputBox (prompt : string) : Async (option string) :=
  emit (EvShowInputBox prompt) ;; ret (inputBoxAnswer host prompt).

Definition showErrorMessage (message : string) : Async unit :=
  emit (EvShowErrorMessage message).

(** Modelled from the spec: [analytics.sendEvent] lives in
    [./analytics], which is not among the sources; the spec puts
    telemetry out of scope, an external collaborator.  The call is
    logged and has no other effect. *)
Definition sendEvent (category action : string) : Async unit :=
  emit (EvSendEvent category action).

Definition quicktype (opts : Options) : Async SerializedRenderResult :=
  emit (EvQuicktype opts) ;;
  match quicktype_engine host opts with
  | Rendered result => ret result
  | EngineRejected e => reject e
  | EngineFault e => fault e
  end.

(** [editor.edit(builder => ...)] with the one operation the callback
    issues. *)
Definition edit (op : EditOp) : Async unit :=
  fun w => (Normal tt, mkWorld (applyEdit op (document w)) (trace w ++ [EvEdit op])).

(** ** [paste] *)
Definition paste : Async string :=
  emit EvPaste ;;
  match pasteCallback host with
  | inl err => reject err
  | inr content => ret content
  end.

(** ** [jsonIsValid] *)
Definition jsonIsValid (json : string) : bool :=
  match JSON_parse host json with
  | Some _ => true
  | None => false
  end.

Record Prompted : Type := mkPrompted {
  cancelled : bool;
  name : string
}.

(** ** [promptTopLevelName] *)
Definition promptTopLevelName : Async Prompted :=
  topLevelName <- showInputBox "Top-level type name?" ;;
  ret {| cancelled := JS.is_undefined topLevelName;
         name := JS.or_else topLevelName "TopLevel" |}.

(** ** [getTargetLanguage] *)
Definition languageChoices : list string :=
  JS.sort (map displayName (languages host)).

Definition getTargetLanguage (editor : TextEditor) : Async Prompted :=
  let documentLanguage := languageId editor in
  match languageNamed host documentLanguage with
  | Some currentLanguage =>
      ret {| cancelled := false; name := displayName currentLanguage |}
  | None =>
      chosenName <- showQuickPick languageChoices ;;
      ret {| cancelled := JS.is_undefined chosenName;
             name := JS.or_else chosenName "types" |}
  end.

(** ** [pasteAsTypes] *)

Definition editorIndentation (editor : TextEditor) : string :=
  if insertSpaces (options editor)
  then JS.repeat " " (tabSize (options editor))
  else JS.TAB.

Definition makeRendererOptions (justTypes : bool) : gmap string string :=
  if justTypes
  then <["features" := "just-types"]> (<["just-types" := "true"]> ∅)
  else ∅.

(** The object literal indexed by [kind]. *)
Definition sourceTable (topLevelName content : string) : gmap string TypeSource :=
  <["typescript" := TypeScriptTypeSource {[ (topLevelName +:+ ".ts") := content ]}]>
  (<["schema" := SchemaTypeSource topLevelName content]>
  (<["json" := JSONTypeSource topLevelName [content]]> ∅)).

Definition pasteAsTypes (editor : TextEditor) (kind : string) (justTypes : bool)
  : Async unit :=
  let indentation := editorIndentation editor in
  language <- getTargetLanguage editor ;;
  if cancelled language then ret tt else
  content <- paste ;;
  if negb (String.eqb kind "typescript") && negb (jsonIsValid content) then
    showErrorMessage "Clipboard does not contain valid JSON."
  else
  let rendererOptions := makeRendererOptions justTypes in
  topLevelName <- promptTopLevelName ;;
  if cancelled topLevelName then ret tt else
  match sourceTable (name topLevelName) content !! kind with
  | None => showErrorMessage ("Unrecognized input format: " +:+ kind)
  | Some source =>
      sendEvent ("paste " +:+ kind) (name language) ;;
      result <- try_catch
                  (r <- quicktype {| lang := name language;
                                     sources := [source];
                                     leadingComments := ["Generated by https://quicktype.io"];
                                     rendererOptions := rendererOptions;
                                     indentation := indentation |} ;;
                   ret (Some r))
                  (fun e => showErrorMessage e ;; ret None) ;;
      match result with
      | None => ret tt
      | Some result =>
          let text := JS.join JS.LF (lines result) in
          let selection := selection editor in
          edit (if isEmpty selection
                then Insert (start selection) text
                else Replace (newRange (start selection) (end_ selection)) text)
      end
  end.

(** ** [activate]

    The handler it registers under each command ([analytics.initialize]
    is telemetry and left out). *)
Definition handler (c : Command) (editor : TextEditor) : Async unit :=
  match c with
  | PasteJSONAsTypes => pasteAsTypes editor "json" true
  | PasteJSONAsTypesAndSerialization => pasteAsTypes editor "json" false
  | PasteSchemaAsTypes => pasteAsTypes editor "schema" true
  | PasteSchemaAsTypesAndSerialization => pasteAsTypes editor "schema" false
  | PasteTypeScriptAsTypesAndSerialization => pasteAsTypes editor "typescript" false
  end.

End Extension.

(* ===================================================================== *)
(** * The inference-and-rendering core of the specification *)
(* ===================================================================== *)

(** Modelled from the spec: the engine behind [quicktype] (sample
    ingest, type unifier, type graph, renderer) is the quicktype package,
    none of which is among the sources of the extension.  Every definition
    of this module follows sections 3 and 4 of the specification, in the
    specification's own vocabulary. *)
Module Core.

(** Modelled from the spec: the error taxonomy of section 7, as far as
    sections 4.1 and 4.3 raise it. *)
Inductive Error : Type :=
| ParseError
| SchemaError
| SourceParseError
| UnsupportedLanguageError
| UnsupportedFeatureError.

(** Modelled from the spec: the kinds of [Primitive(kind)], those of a
    JSON value, with the integer and number of section 4.2 apart. *)
Inductive PrimitiveKind : Type :=
| KNull
| KBoolean
| KInteger
| KNumber
| KString.

#[export] Instance PrimitiveKind_eq_dec : EqDecision PrimitiveKind.
Proof. solve_decision. Defined.

(** Modelled from the spec: the Shape of section 3, "an intermediate,
    unmerged type guess for one sample -- primitive kind, or composite
    with child Shapes keyed by field name or index". *)
Inductive Shape : Type :=
| ShPrimitive (kind : PrimitiveKind)
| ShObject (fields : list (string * Shape))
| ShArray (items : list Shape).

(** Modelled from the spec: the Type Graph Node of section 3.  JSON
    samples have no cycles, so a NodeRef is kept as the node it refers
    to; a field carries the mark "optional" of section 4.2; an array of
    no samples has no element type (the "placeholder" of section 4.2).
    No rule of section 4.2 builds an Enum, which is left out. *)
Inductive Node : Type :=
| Primitive (kind : PrimitiveKind)
| Object (fields : list (string * (bool * Node)))
| Array (element : option Node)
| Union (members : list Node).

(** Modelled from the spec: section 4.2, "Numeric vs. integer
    distinction is preserved when all observed numeric samples are
    integral". *)
Definition integral (mantissa exponent : Z) : bool :=
  (0 <=? exponent)%Z || (mantissa mod 10 ^ (- exponent) =? 0)%Z.

(** Modelled from the spec: Sample Ingest of section 4.1, what a parsed
    JSON value looks like. *)
Fixpoint shapeOf (v : JS.JSONValue) : Shape :=
  match v with
  | JS.JNull => ShPrimitive KNull
  | JS.JBool _ => ShPrimitive KBoolean
  | JS.JNumber m e => ShPrimitive (if integral m e then KInteger else KNumber)
  | JS.JString _ => ShPrimitive KString
  | JS.JArray items => ShArray (map shapeOf items)
  | JS.JObject members =>
      ShObject ((fix fields (ms : list (string * JS.JSONValue)) :=
                   match ms with
                   | [] => []
                   | (k, x) :: rest => (k, shapeOf x) :: fields rest
                   end) members)
  end.

(** Modelled from the spec: Sample Ingest, [json] kind: "input must be
    syntactically valid JSON text; fails with ParseError otherwise". *)
Definition ingestJSON (text : string) : Error + Shape :=
  match JS.JSON_parse text with
  | Some v => inr (shapeOf v)
  | None => inl ParseError
  end.

(** Modelled from the spec: section 4.2, two primitive kinds that are
    one kind of value: equal kinds, and integer with number ("any single
    fractional value observed downgrades the field to general numeric"). *)
Definition joinPrimitive (a b : PrimitiveKind) : option PrimitiveKind :=
  match a, b with
  | KInteger, KNumber | KNumber, KInteger => Some KNumber
  | _, _ => if decide (a = b) then Some a else None
  end.

(** Modelled from the spec: what the primitive kind [k] makes of a type
    of its own sort, by [joinPrimitive]. *)
Definition mergePrimitive (k : PrimitiveKind) (x : Node) : option Node :=
  match x with
  | Primitive k' => option_map Primitive (joinPrimitive k' k)
  | _ => None
  end.

(** Modelled from the spec: section 4.2, "the Union preserves every
    distinct kind".  [a] joins the members [bs] of a union: it merges
    with the first member [merge] accepts, and is a new member otherwise. *)
Fixpoint addMember (merge : Node -> option Node) (a : Node) (bs : list Node) : list Node :=
  match bs with
  | [] => [a]
  | b :: rest =>
      match merge b with
      | Some t => t :: rest
      | None => b :: addMember merge a rest
      end
  end.

(** Modelled from the spec: section 4.2, "primitive mismatches on the
    same path become a Union".  [a] meets the type [b] seen so far: a
    mismatch becomes a Union that keeps both. *)
Definition absorb (merge : Node -> option Node) (a b : Node) : Node :=
  match b with
  | Union bs => Union (addMember merge a bs)
  | _ =>
      match merge b with
      | Some t => t
      | None => Union [b; a]
      end
  end.

(** Modelled from the spec: section 4.2, objects "merge
    field-by-field".  The field [name] of one sample meets the fields seen
    so far: it merges with the field of that name, and is a new, optional
    field when there is none. *)
Fixpoint upsertField (name : string) (optional : bool) (ty : Node)
    (merge : Node -> Node) (fields : list (string * (bool * Node)))
  : list (string * (bool * Node)) :=
  match fields with
  | [] => [(name, (true, ty))]
  | (n, (o, t)) :: rest =>
      if String.eqb n name
      then (n, (o || optional, merge t)) :: rest
      else (n, (o, t)) :: upsertField name optional ty merge rest
  end.

(** Modelled from the spec: whether an object has a field of that name. *)
Definition hasField (name : string) (fields : list (string * (bool * Node))) : bool :=
  existsb (fun f => String.eqb (fst f) name) fields.

(** Modelled from the spec: section 4.2, "a field present in one sample
    but absent in another becomes optional". *)
Definition markAbsent (present : list (string * (bool * Node)))
    (fields : list (string * (bool * Node))) : list (string * (bool * Node)) :=
  map (fun f => if hasField (fst f) present then f else (fst f, (true, snd (snd f)))) fields.

(** Modelled from the spec: the Type Unifier of section 4.2,
    "structural unification -- two object shapes with overlapping field
    sets merge field-by-field (union their individual field types); a
    field present in one sample but absent in another becomes optional;
    primitive mismatches on the same path become a Union; arrays unify
    their element shapes recursively", and the tie-break rule: "the
    Union preserves every distinct kind".  [unify a b] is the type [b]
    seen so far, widened by [a]. *)
Fixpoint unify (a : Node) : Node -> Node :=
  match a with
  | Primitive k => absorb (mergePrimitive k) a
  | Object fa =>
      absorb (fun x => match x with
                       | Object fb =>
                           Some (Object
                             ((fix go (fs : list (string * (bool * Node))) acc :=
                                 match fs with
                                 | [] => acc
                                 | (n, (o, t)) :: rest => go rest (upsertField n o t (unify t) acc)
                                 end) fa (markAbsent fa fb)))
                       | _ => None
                       end) a
  | Array ea =>
      absorb (fun x => match x with
                       | Array eb =>
                           Some (Array match ea, eb with
                                       | Some ta, Some tb => Some (unify ta tb)
                                       | Some ta, None => Some ta
                                       | None, _ => eb
                                       end)
                       | _ => None
                       end) a
  | Union ms =>
      fun b => (fix go (ms : list Node) (acc : Node) :=
                  match ms with
                  | [] => acc
                  | m :: rest => go rest (unify m acc)
                  end) ms b
  end.

(** Modelled from the spec: section 4.1, "multiple samples under the
    same logical name are permitted and merged", in the order they were
    given. *)
Definition unifyAll (ts : list Node) : option Node :=
  match ts with
  | [] => None
  | t :: rest => Some (fold_left (fun acc x => unify x acc) rest t)
  end.

(** Modelled from the spec: the type of one Shape; every field it has
    is required, and "arrays unify their element shapes recursively". *)
Fixpoint typeOf (s : Shape) : Node :=
  match s with
  | ShPrimitive k => Primitive k
  | ShObject fields =>
      Object ((fix go (fs : list (string * Shape)) :=
                 match fs with
                 | [] => []
                 | (n, x) :: rest => (n, (false, typeOf x)) :: go rest
                 end) fields)
  | ShArray items => Array (unifyAll (map typeOf items))
  end.

(** Modelled from the spec: the Render Options of section 3, "target
    language identifier, indentation string, boolean types only vs.
    types+serialization, leading comment lines". *)
Record RenderOptions : Type := mkRenderOptions {
  targetLanguage : string;
  indentationString : string;
  typesOnly : bool;
  leadingCommentLines : list string
}.

(** Modelled from the spec: the "nesting level" of section 4.3.
    Target text before it is laid out is a line, or a group of pieces one
    nesting level deeper than what surrounds it. *)
Inductive Source : Type :=
| Line (text : string)
| Nested (body : list Source).

(** Modelled from the spec: what section 4.3 makes depend on the target
    language: its comment syntax, whether it can do without codec code,
    and the declarations it writes for a type graph under a root name. *)
Record Language : Type := mkTargetLanguage {
  identifier : string;
  commentLine : string -> string;
  requiresCodec : bool;
  declarations : bool -> string -> Node -> list Source
}.

(** Modelled from the spec: section 4.3, "Respects indentation option
    exactly (character sequence repeated per nesting level)". *)
Fixpoint emit (indentation : string) (level : nat) (s : Source) : list string :=
  match s with
  | Line text => [JS.repeat indentation level +:+ text]
  | Nested body =>
      (fix go (ss : list Source) : list string :=
         match ss with
         | [] => []
         | x :: rest => emit indentation (S level) x ++ go rest
         end) body
  end.

(** Modelled from the spec: the lines of several pieces, in order. *)
Definition emitAll (indentation : string) (level : nat) (ss : list Source) : list string :=
  flat_map (emit indentation level) ss.

(** Modelled from the spec: the nesting level of every line of a piece
    of target text, the number of groups around it. *)
Fixpoint nesting (level : nat) (s : Source) : list (nat * string) :=
  match s with
  | Line text => [(level, text)]
  | Nested body =>
      (fix go (ss : list Source) : list (nat * string) :=
         match ss with
         | [] => []
         | x :: rest => nesting (S level) x ++ go rest
         end) body
  end.

(** Modelled from the spec: the Renderer of section 4.3, "given a Type
    Graph, a root type name, and Render Options, produce an ordered
    sequence of lines of source text"; it "prepends each string in the
    leading-comment list as a comment line", "fails with
    UnsupportedLanguageError if the requested language is unknown" and
    "with UnsupportedFeatureError if types only conflicts with a
    target-language requirement". *)
Definition render (supported : list Language) (graph : Node) (root : string)
    (o : RenderOptions) : Error + list string :=
  match find (fun l => String.eqb (identifier l) (targetLanguage o)) supported with
  | None => inl UnsupportedLanguageError
  | Some l =>
      if typesOnly o && requiresCodec l then inl UnsupportedFeatureError
      else inr (map (commentLine l) (leadingCommentLines o)
                ++ emitAll (indentationString o) 0 (declarations l (typesOnly o) root graph))
  end.

(** Modelled from the spec: the samples of one logical name, ingested
    one by one (section 2, "Sample Ingest -> Type Unifier -> Type Graph ->
    Renderer -> output text"); the first malformed one fails the run. *)
Fixpoint ingestAll (samples : list string) : Error + list Node :=
  match samples with
  | [] => inr []
  | text :: rest =>
      match ingestJSON text, ingestAll rest with
      | inr shape, inr ts => inr (typeOf shape :: ts)
      | inl e, _ => inl e
      | _, inl e => inl e
      end
  end.

(** Modelled from the spec: ingest, then unify; without any sample the
    graph is the "Object(empty)" of section 4.2. *)
Definition infer (samples : list string) : Error + Node :=
  match ingestAll samples with
  | inl e => inl e
  | inr ts =>
      match unifyAll ts with
      | Some t => inr t
      | None => inr (Object [])
      end
  end.

(** Modelled from the spec: the whole run, which "either completes and
    returns full output, or fails and returns nothing" (section 5). *)
Definition run (supported : list Language) (root : string) (samples : list string)
    (o : RenderOptions) : Error + list string :=
  match infer samples with
  | inl e => inl e
  | inr graph => render supported graph root o
  end.

End Core.

(* ===================================================================== *)
(** * A host to run the extension on *)
(* ===================================================================== *)

Module Fixture.

Definition QUOTE : string := JS.chr 34.
Definition quoted (s : string) : string := QUOTE +:+ s +:+ QUOTE.

(** [{"a": 1}] and [{"a": "x"}] *)
Definition sample_a_integer : string := "{" +:+ quoted "a" +:+ ": 1}".
Definition sample_a_string : string := "{" +:+ quoted "a" +:+ ": " +:+ quoted "x" +:+ "}".

Definition typescript : TargetLanguage := mkLanguage "TypeScript" ["typescript"; "ts"; "tsx"].
Definition swift : TargetLanguage := mkLanguage "Swift" ["swift"; "swift4"].
Definition csharp : TargetLanguage := mkLanguage "C#" ["cs"; "csharp"].

Definition allLanguages : list TargetLanguage := [csharp; swift; typescript].

Definition findLanguage (id : string) : option TargetLanguage :=
  find (fun l => existsb (String.eqb id) (names l)) allLanguages.

Definition kindName (k : Core.PrimitiveKind) : string :=
  match k with
  | Core.KNull => "null"
  | Core.KBoolean => "boolean"
  | Core.KInteger => "integer"
  | Core.KNumber => "number"
  | Core.KString => "string"
  end.

Fixpoint typeExpression (t : Core.Node) : string :=
  match t with
  | Core.Primitive k => kindName k
  | Core.Object _ => "object"
  | Core.Array None => "array"
  | Core.Array (Some e) => typeExpression e +:+ "[]"
  | Core.Union ms => JS.join " | " (map typeExpression ms)
  end.

(** A small target language: one block per root object. *)
Definition plainTypes (id : string) : Core.Language :=
  Core.mkTargetLanguage id (fun c => "// " +:+ c) false
    (fun _ root graph =>
       match graph with
       | Core.Object fields =>
           [Core.Line ("type " +:+ root +:+ " {");
            Core.Nested
              (map (fun f : string * (bool * Core.Node) =>
                      Core.Line (fst f +:+ (if fst (snd f) then "?: " else ": ")
                                 +:+ typeExpression (snd (snd f)) +:+ ";"))
                   fields);
            Core.Line "}"]
       | _ => [Core.Line ("type " +:+ root +:+ " = " +:+ typeExpression graph +:+ ";")]
       end).

(** An engine that runs the core on JSON sources and rejects the rest. *)
Definition engine (opts : Options) : EngineOutcome :=
  match sources opts with
  | [JSONTypeSource root samples] =>
      match Core.run (map (fun l => plainTypes (displayName l)) allLanguages) root samples
              (Core.mkRenderOptions (lang opts) (indentation opts)
                 (bool_decide (rendererOptions opts !! "just-types" = Some "true"))
                 (leadingComments opts)) with
      | inr ls => Rendered (mkResult ls)
      | inl _ => EngineRejected "the core failed"
      end
  | _ => EngineRejected "only JSON samples are rendered here"
  end.

(** The host, given the clipboard and what the user answers. *)
Definition host (clipboard : string + string)
    (pick : option string) (typed : option string) : Host :=
  {| languageNamed := findLanguage;
     languages := allLanguages;
     quicktype_engine := engine;
     JSON_parse := JS.JSON_parse;
     pasteCallback := clipboard;
     quickPickAnswer := fun _ => pick;
     inputBoxAnswer := fun _ => typed |}.

Definition editorOf (id : string) (spaces : bool) (width : nat) (from to : nat) : TextEditor :=
  mkEditor id (mkOptions spaces width) (mkSelection from to).

End Fixture.

(* ===================================================================== *)
(** * Vocabulary of the statements *)
(* ===================================================================== *)

(** A document with nothing logged yet. *)
Definition initial (doc : string) : World := mkWorld doc [].

Definition top_level_prompt : string := "Top-level type name?".
Definition invalid_json_message : string := "Clipboard does not contain valid JSON.".

(** The outcome of target-language resolution, without the log. *)
Definition resolved (h : Host) (editor : TextEditor) (doc : string) : Completion Prompted :=
  fst (getTargetLanguage h editor (initial doc)).

(** The names the engine of the host stands for: those of the listed
    languages and those of the languages [languageNamed] recognises. *)
Definition supported (h : Host) (nm : string) : Prop :=
  (exists l, In l (languages h) /\ displayName l = nm)
  \/ (exists id l, languageNamed h id = Some l /\ displayName l = nm).

Definition edits (evs : list Event) : list EditOp :=
  omap (fun e => match e with EvEdit op => Some op | _ => None end) evs.

Definition engine_calls (evs : list Event) : list Options :=
  omap (fun e => match e with EvQuicktype o => Some o | _ => None end) evs.

Definition edit_text (op : EditOp) : string :=
  match op with
  | Insert _ text => text
  | Replace _ text => text
  end.

(** The host [h] with another [JSON.parse]. *)
Definition withParser (h : Host) (parse : string -> option JS.JSONValue) : Host :=
  {| languageNamed := languageNamed h;
     languages := languages h;
     quicktype_engine := quicktype_engine h;
     JSON_parse := parse;
     pasteCallback := pasteCallback h;
     quickPickAnswer := quickPickAnswer h;
     inputBoxAnswer := inputBoxAnswer h |}.

(** The options [pasteAsTypes] builds for the engine. *)
Definition engineOptions (editor : TextEditor) (language : string) (source : TypeSource)
    (justTypes : bool) : Options :=
  {| lang := language;
     sources := [source];
     leadingComments := ["Generated by https://quicktype.io"];
     rendererOptions := makeRendererOptions justTypes;
     indentation := editorIndentation editor |}.

(** [k'] is the kind [k] or what section 4.2 lets it become: integer
    among fractional samples is number. *)
Definition widened (k k' : Core.PrimitiveKind) : Prop :=
  k' = k \/ (k = Core.KInteger /\ k' = Core.KNumber).

(** The type [t] still tells the primitive kind [k]: it is that kind, or
    a Union with that kind among its members. *)
Definition keeps (t : Core.Node) (k : Core.PrimitiveKind) : Prop :=
  exists k', widened k k'
             /\ (t = Core.Primitive k'
                 \/ exists ms, t = Core.Union ms /\ In (Core.Primitive k') ms).

Definition isPrimitive (t : Core.Node) : Prop := exists k, t = Core.Primitive k.

(** A primitive kind or a Union of primitive kinds. *)
Definition primitivesOnly (t : Core.Node) : Prop :=
  isPrimitive t \/ exists ms, t = Core.Union ms /\ Forall isPrimitive ms.

(** The line the renderer writes for [text] at nesting level [level]. *)
Definition indented (indentation : string) (line : nat * string) : string :=
  JS.repeat indentation (fst line) +:+ snd line.

(** The ways a run of [pasteAsTypes] fails. *)
Inductive FailurePath (h : Host) (editor : TextEditor) (kind : string) (w : World) : Prop :=
| language_prompt_cancelled :
    languageNamed h (languageId editor) = None ->
    quickPickAnswer h (languageChoices h) = None ->
    FailurePath h editor kind w
| clipboard_unreadable err :
    pasteCallback h = inl err ->
    FailurePath h editor kind w
| invalid_input content :
    kind <> "typescript" ->
    pasteCallback h = inr content ->
    jsonIsValid h content = false ->
    FailurePath h editor kind w
| name_prompt_cancelled :
    inputBoxAnswer h top_level_prompt = None ->
    FailurePath h editor kind w
| unrecognized_kind :
    kind <> "json" -> kind <> "schema" -> kind <> "typescript" ->
    FailurePath h editor kind w
| engine_exception opts :
    In opts (engine_calls (trace w)) ->
    (forall r, quicktype_engine h opts <> Rendered r) ->
    FailurePath h editor kind w.

(* ===================================================================== *)
(** * Activation *)
(* ===================================================================== *)

(** The commands vscode knows, by identifier. *)
Abbreviation Registry := (gmap string (TextEditor -> Async unit)).

(** [vscode.commands.registerTextEditorCommand(id, callback)]: it throws
    ([None]) when a command of that identifier exists, and gives back the
    disposable that unregisters the command otherwise; a disposable is
    kept as the identifier of its command. *)
Definition registerTextEditorCommand (id : string) (callback : TextEditor -> Async unit)
    (registry : Registry) : option (string * Registry) :=
  match registry !! id with
  | Some _ => None
  | None => Some (id, <[id := callback]> registry)
  end.

(** The commands of [activate], in the order of its argument list. *)
Definition allCommands : list Command :=
  [PasteJSONAsTypes; PasteJSONAsTypesAndSerialization; PasteSchemaAsTypes;
   PasteSchemaAsTypesAndSerialization; PasteTypeScriptAsTypesAndSerialization].

(** The arguments of [context.subscriptions.push(...)], evaluated from
    left to right: the registry as the registrations leave it, and the
    disposables when none of them threw. *)
Fixpoint registerAll (h : Host) (cs : list Command) (registry : Registry)
  : Registry * option (list string) :=
  match cs with
  | [] => (registry, Some [])
  | c :: rest =>
      match registerTextEditorCommand (commandId c) (handler h c) registry with
      | None => (registry, None)
      | Some (disposable, registry') =>
          let '(registry'', disposables) := registerAll h rest registry' in
          (registry'', option_map (cons disposable) disposables)
      end
  end.

(** [activate(context)], on the subscriptions of the context
    ([analytics.initialize] is telemetry and left out): the registry it
    leaves, and the subscriptions after the push, or [None] when a
    registration threw, in which case nothing was pushed. *)
Definition activate (h : Host) (subscriptions : list string) (registry : Registry)
  : Registry * option (list string) :=
  match registerAll h allCommands registry with
  | (registry', Some disposables) => (registry', Some (subscriptions ++ disposables))
  | (registry', None) => (registry', None)
  end.

(** [deactivate()] *)
Definition deactivate : unit := tt.

(** What vscode runs for the command [id] on the active editor. *)
Definition executeCommand (registry : Registry) (id : string) (editor : TextEditor)
  : option (Async unit) :=
  match registry !! id with
  | Some callback => Some (callback editor)
  | None => None
  end.

(* ===================================================================== *)
(** * More vocabulary *)
(* ===================================================================== *)

(** The host [h] with another engine. *)
Definition withEngine (h : Host) (engine : Options -> EngineOutcome) : Host :=
  {| languageNamed := languageNamed h;
     languages := languages h;
     quicktype_engine := engine;
     JSON_parse := JSON_parse h;
     pasteCallback := pasteCallback h;
     quickPickAnswer := quickPickAnswer h;
     inputBoxAnswer := inputBoxAnswer h |}.

(** The world [w] is what a run on [doc] leaves when its one edit puts
    [text] on the selection of the editor: an insertion at the start of an
    empty selection, a replacement of the range from start to end
    otherwise, with the text outside the selection as it was. *)
Definition editedWith (editor : TextEditor) (doc : string) (w : World) (text : string)
  : Prop :=
  let sel := selection editor in
  edits (trace w)
  = [if isEmpty sel then Insert (start sel) text
     else Replace (mkRange (start sel) (end_ sel)) text]
  /\ (isEmpty sel = true -> start sel = end_ sel)
  /\ document w = take (start sel) doc +:+ text +:+ drop (end_ sel) doc
  /\ (end_ sel <= String.length doc ->
      take (start sel) (document w) = take (start sel) doc
      /\ drop (start sel + String.length text) (document w) = drop (end_ sel) doc).

(** The place of a call in a run: the order of the code. *)
Definition phase (e : Event) : nat :=
  match e with
  | EvShowQuickPick _ => 0
  | EvPaste => 1
  | EvShowInputBox _ => 2
  | EvSendEvent _ _ => 3
  | EvQuicktype _ => 4
  | EvEdit _ => 5
  | EvShowErrorMessage _ => 5
  end.

Definition telemetry (evs : list Event) : list (string * string) :=
  omap (fun e => match e with EvSendEvent c a => Some (c, a) | _ => None end) evs.

Definition messages (evs : list Event) : list string :=
  omap (fun e => match e with EvShowErrorMessage m => Some m | _ => None end) evs.

Definition quickPicks (evs : list Event) : list (list string) :=
  omap (fun e => match e with EvShowQuickPick items => Some items | _ => None end) evs.

(** The log without the edits. *)
Definition outside (evs : list Event) : list Event :=
  omap (fun e => match e with EvEdit _ => None | _ => Some e end) evs.

(** The texts a source carries, and the names it carries them under. *)
Definition sourceTexts (s : TypeSource) : list string :=
  match s with
  | JSONTypeSource _ samples => samples
  | SchemaTypeSource _ schema => [schema]
  | TypeScriptTypeSource files => map snd (map_to_list files)
  end.

Definition sourceNames (s : TypeSource) : list string :=
  match s with
  | JSONTypeSource n _ => [n]
  | SchemaTypeSource n _ => [n]
  | TypeScriptTypeSource files => map fst (map_to_list files)
  end.

(* ===================================================================== *)
(** * Tactics for runs of the extension *)
(* ===================================================================== *)

Ltac unfold_run :=
  unfold resolved, initial in *;
  unfold pasteAsTypes, getTargetLanguage, promptTopLevelName, paste, quicktype,
    showQuickPick, showInputBox, showErrorMessage, sendEvent, edit, try_catch,
    bind, ret, reject, fault, emit in *;
  cbn [fst snd document trace cancelled name app JS.is_undefined] in *.

Ltac simpl_run :=
  cbn [fst snd document trace cancelled name app JS.is_undefined negb andb] in *.

(** One branching point of [pasteAsTypes], in the order of the code. *)
Ltac step_run h :=
  match goal with
  | |- context [languageNamed h ?x] =>
      let E := fresh "Hnamed" in destruct (languageNamed h x) eqn:E
  | |- context [quickPickAnswer h ?x] =>
      let E := fresh "Hpick" in destruct (quickPickAnswer h x) eqn:E
  | |- context [pasteCallback h] =>
      let E := fresh "Hclip" in destruct (pasteCallback h) eqn:E
  | |- context [negb (String.eqb ?k "typescript") && negb (jsonIsValid h ?c)] =>
      let E := fresh "Hguard" in
      destruct (negb (String.eqb k "typescript") && negb (jsonIsValid h c)) eqn:E
  | |- context [inputBoxAnswer h ?p] =>
      let E := fresh "Hname" in destruct (inputBoxAnswer h p) eqn:E
  | |- context [sourceTable ?n ?c !! ?k] =>
      let E := fresh "Hsource" in destruct (sourceTable n c !! k) eqn:E
  | |- context [quicktype_engine h ?o] =>
      let E := fresh "Hengine" in destruct (quicktype_engine h o) eqn:E
  end; simpl_run.

Ltac run_paths h := unfold_run; repeat step_run h.

(* ===================================================================== *)
(** * Lemmas on the built-ins *)
(* ===================================================================== *)

Lemma str_le_total : Total JS.str_le.
Proof. intros a b. unfold JS.str_le. apply String.leb_total. Qed.

Lemma sort_permutation (xs : list string) : JS.sort xs ≡ₚ xs.
Proof. unfold JS.sort. apply merge_sort_Permutation. Qed.

Lemma sort_sorted (xs : list string) : Sorted JS.str_le (JS.sort xs).
Proof. unfold JS.sort. apply (@Sorted_merge_sort _ _ _ str_le_total). Qed.

Lemma sort_In (xs : list string) (x : string) : In x (JS.sort xs) <-> In x xs.
Proof.
  rewrite <- !list_elem_of_In.
  split; intros H.
  - now rewrite sort_permutation in H.
  - now rewrite sort_permutation.
Qed.

Lemma or_else_nonempty (s d : string) : s <> EmptyString -> JS.or_else (Some s) d = s.
Proof. destruct s; [congruence | reflexivity]. Qed.

Lemma or_else_empty (d : string) : JS.or_else (Some EmptyString) d = d.
Proof. reflexivity. Qed.

Lemma length_append (a b : string) :
  String.length (a +:+ b) = String.length a + String.length b.
Proof. induction a as [|c a IH]; simpl; [reflexivity | now rewrite IH]. Qed.

Lemma repeat_length (s : string) (n : nat) :
  String.length (JS.repeat s n) = n * String.length s.
Proof.
  induction n as [|n IH]; simpl; [reflexivity|].
  rewrite length_append, IH. reflexivity.
Qed.

Lemma repeat_space_chars (n : nat) (i : nat) (c : ascii) :
  String.get i (JS.repeat " " n) = Some c -> c = " "%char.
Proof.
  revert i. induction n as [|n IH]; intros i; simpl.
  - discriminate.
  - destruct i as [|i]; simpl.
    + now intros [= <-].
    + apply IH.
Qed.

Lemma take_append_exact (a b : string) : take (String.length a) (a +:+ b) = a.
Proof.
  unfold take. induction a as [|c a IH]; simpl.
  - destruct b; reflexivity.
  - now rewrite IH.
Qed.

Lemma drop_append_exact (a b : string) : drop (String.length a) (a +:+ b) = b.
Proof. unfold drop. induction a as [|c a IH]; simpl; [reflexivity | exact IH]. Qed.

Lemma take_length (n : nat) (doc : string) :
  n <= String.length doc -> String.length (take n doc) = n.
Proof.
  unfold take. revert n. induction doc as [|c doc IH]; intros [|n] H; simpl in *;
    try reflexivity; try lia.
  rewrite IH; [reflexivity | lia].
Qed.

Lemma take_drop (n : nat) (doc : string) : take n doc +:+ drop n doc = doc.
Proof.
  unfold take, drop. revert n. induction doc as [|c doc IH]; intros [|n]; simpl;
    try reflexivity.
  change (String c (substring 0 n doc +:+ JS.drop_string n doc) = String c doc).
  now rewrite IH.
Qed.

Lemma append_assoc (a b c : string) : (a +:+ b) +:+ c = a +:+ (b +:+ c).
Proof.
  induction a as [|x a IH]; [reflexivity|].
  change (String x ((a +:+ b) +:+ c) = String x (a +:+ (b +:+ c))).
  now rewrite IH.
Qed.

Lemma selection_ordered (s : Selection) : start s <= end_ s.
Proof. unfold start, end_. lia. Qed.

Lemma selection_empty (s : Selection) : isEmpty s = true -> start s = end_ s.
Proof. unfold isEmpty, start, end_. intros H%Nat.eqb_eq. lia. Qed.

Lemma newRange_selection (s : Selection) :
  newRange (start s) (end_ s) = mkRange (start s) (end_ s).
Proof.
  unfold newRange. pose proof (selection_ordered s) as H.
  apply Nat.leb_le in H. now rewrite H.
Qed.

(* ===================================================================== *)
(** * Runs of the extension *)
(* ===================================================================== *)

(** A run only appends to the log, and what it does is the same whatever
    was logged before. *)
Lemma pasteAsTypes_frame (h : Host) (editor : TextEditor) (kind : string)
    (justTypes : bool) (doc : string) (log : list Event) :
  pasteAsTypes h editor kind justTypes (mkWorld doc log)
  = let '(c, w) := pasteAsTypes h editor kind justTypes (initial doc) in
    (c, mkWorld (document w) (log ++ trace w)).
Proof.
  unfold_run.
  destruct (languageNamed h (languageId editor)) as [l|];
    [| destruct (quickPickAnswer h (languageChoices h)) as [s|] ];
    cbn [fst snd document trace cancelled name app JS.is_undefined];
    rewrite ?app_nil_r; try reflexivity;
    (destruct (pasteCallback h) as [err|content];
     cbn [fst snd document trace cancelled name app];
     [ now rewrite <- ?app_assoc |];
     destruct (negb (String.eqb kind "typescript") && negb (jsonIsValid h content));
     cbn [fst snd document trace cancelled name app];
     [ now rewrite <- ?app_assoc |];
     destruct (inputBoxAnswer h "Top-level type name?") as [a|];
     cbn [fst snd document trace cancelled name app JS.is_undefined];
     [| now rewrite <- ?app_assoc ];
     destruct (sourceTable (JS.or_else (Some a) "TopLevel") content !! kind) as [src|];
     cbn [fst snd document trace cancelled name app];
     [| now rewrite <- ?app_assoc ];
     match goal with
     | |- context [quicktype_engine h ?o] => destruct (quicktype_engine h o)
     end;
     cbn [fst snd document trace cancelled name app];
     now rewrite <- ?app_assoc).
Qed.

(** Every registered command runs [pasteAsTypes] on a kind the source
    table knows. *)
Lemma handler_kind (h : Host) (c : Command) :
  exists kind justTypes,
    handler h c = (fun editor => pasteAsTypes h editor kind justTypes)
    /\ (forall n content, is_Some (sourceTable n content !! kind)).
Proof.
  destruct c; do 2 eexists; (split; [reflexivity |]); intros n content; eexists;
    reflexivity.
Qed.

(** Two runs on the fixture: an insertion at the caret, and a run the
    user cancels at the name prompt. *)
Example run_inserts :
  pasteAsTypes (Fixture.host (inr Fixture.sample_a_integer) None (Some "Point"))
    (Fixture.editorOf "typescript" true 2 3 3) "json" true (initial "abcdef")
  = (Normal tt,
     mkWorld ("abc" +:+ JS.join JS.LF ["// Generated by https://quicktype.io";
                                       "type Point {"; "  a: integer;"; "}"] +:+ "def")
       [EvPaste; EvShowInputBox "Top-level type name?";
        EvSendEvent "paste json" "TypeScript";
        EvQuicktype (engineOptions (Fixture.editorOf "typescript" true 2 3 3) "TypeScript"
                       (JSONTypeSource "Point" [Fixture.sample_a_integer]) true);
        EvEdit (Insert 3 (JS.join JS.LF ["// Generated by https://quicktype.io";
                                         "type Point {"; "  a: integer;"; "}"]))]).
Proof. vm_compute. reflexivity. Qed.

Example run_cancelled_at_name :
  pasteAsTypes (Fixture.host (inr Fixture.sample_a_integer) (Some "Swift") None)
    (Fixture.editorOf "plaintext" false 4 0 6) "json" false (initial "abcdef")
  = (Normal tt,
     mkWorld "abcdef" [EvShowQuickPick ["C#"; "Swift"; "TypeScript"]; EvPaste;
                       EvShowInputBox "Top-level type name?"]).
Proof. vm_compute. reflexivity. Qed.

(** ** Target-language resolution *)

Lemma getTargetLanguage_named (h : Host) (editor : TextEditor) (l : TargetLanguage) (w : World) :
  languageNamed h (languageId editor) = Some l ->
  getTargetLanguage h editor w = (Normal (mkPrompted false (displayName l)), w).
Proof. intros H. unfold getTargetLanguage. now rewrite H. Qed.

Lemma getTargetLanguage_asked (h : Host) (editor : TextEditor) (doc : string) :
  languageNamed h (languageId editor) = None ->
  getTargetLanguage h editor (initial doc)
  = (Normal (mkPrompted (JS.is_undefined (quickPickAnswer h (languageChoices h)))
                        (JS.or_else (quickPickAnswer h (languageChoices h)) "types")),
     mkWorld doc [EvShowQuickPick (languageChoices h)]).
Proof. intros H. unfold getTargetLanguage. now rewrite H. Qed.

(** C5.  Target-language resolution is the first thing a run does, and a
    run whose resolution is cancelled (the document language is unknown
    and the quick pick is dismissed) stops there: the quick pick is all
    it has done; the clipboard is not read, no source is built and the
    engine is not called. *)
Theorem C5_cancelled_language_stops_first
    (h : Host) (editor : TextEditor) (kind : string) (justTypes : bool) (doc : string) :
  let run := pasteAsTypes h editor kind justTypes (initial doc) in
  let resolution := getTargetLanguage h editor (initial doc) in
  (exists rest, trace (snd run) = trace (snd resolution) ++ rest)
  /\ (forall r, fst resolution = Normal r -> cancelled r = true ->
      languageNamed h (languageId editor) = None
      /\ quickPickAnswer h (languageChoices h) = None
      /\ run = (Normal tt, mkWorld doc [EvShowQuickPick (languageChoices h)])
      /\ ~ In EvPaste (trace (snd run))
      /\ engine_calls (trace (snd run)) = []
      /\ edits (trace (snd run)) = []).
Proof.
  cbv zeta. split.
  - run_paths h; eexists; rewrite ?app_nil_r; try reflexivity;
      try (rewrite <- app_assoc; reflexivity).
  - intros r Hr Hc. run_paths h; inversion Hr; subst; simpl in Hc; try discriminate.
    repeat split; try reflexivity. intros [H|[]]; discriminate.
Qed.

Lemma C5_cancelled_language_witness :
  pasteAsTypes (Fixture.host (inr "{}") None (Some "Point"))
    (Fixture.editorOf "plaintext" true 4 0 0) "json" true (initial "text")
  = (Normal tt, mkWorld "text" [EvShowQuickPick ["C#"; "Swift"; "TypeScript"]]).
Proof.
  apply (proj2 (C5_cancelled_language_stops_first
                  (Fixture.host (inr "{}") None (Some "Point"))
                  (Fixture.editorOf "plaintext" true 4 0 0) "json" true "text")
           (mkPrompted true "types")); reflexivity.
Defined.

(** ** The top-level name *)

Lemma sourceTable_json (n content : string) :
  sourceTable n content !! "json" = Some (JSONTypeSource n [content]).
Proof. reflexivity. Qed.

Lemma sourceTable_schema (n content : string) :
  sourceTable n content !! "schema" = Some (SchemaTypeSource n content).
Proof. reflexivity. Qed.

Lemma sourceTable_typescript (n content : string) :
  sourceTable n content !! "typescript"
  = Some (TypeScriptTypeSource {[ (n +:+ ".ts") := content ]}).
Proof. reflexivity. Qed.

Lemma sourceTable_other (n content kind : string) :
  kind <> "json" -> kind <> "schema" -> kind <> "typescript" ->
  sourceTable n content !! kind = None.
Proof.
  intros Hj Hs Ht. unfold sourceTable.
  rewrite !lookup_insert_ne by congruence. apply lookup_empty.
Qed.

Lemma sourceTable_kind (n content kind : string) (s : TypeSource) :
  sourceTable n content !! kind = Some s -> sourceKind s = kind.
Proof.
  unfold sourceTable. intros H.
  destruct (decide (kind = "typescript")) as [->|Ht].
  { rewrite lookup_insert_eq in H. now inversion H. }
  rewrite lookup_insert_ne in H by congruence.
  destruct (decide (kind = "schema")) as [->|Hs].
  { rewrite lookup_insert_eq in H. now inversion H. }
  rewrite lookup_insert_ne in H by congruence.
  destruct (decide (kind = "json")) as [->|Hj].
  { rewrite lookup_insert_eq in H. now inversion H. }
  rewrite lookup_insert_ne in H by congruence.
  rewrite lookup_empty in H. discriminate.
Qed.

(** C8.  An empty answer to the name prompt is not a cancellation: the
    prompt yields [cancelled = false] with the name "TopLevel", and the run
    goes on to call the engine on the source of that name.  [cancelled]
    is true exactly when the prompt was dismissed. *)
Theorem C8_empty_name_defaults
    (h : Host) (editor : TextEditor) (kind : string) (justTypes : bool) (doc : string) :
  (forall w, inputBoxAnswer h top_level_prompt = Some EmptyString ->
     promptTopLevelName h w
     = (Normal (mkPrompted false "TopLevel"),
        mkWorld (document w) (trace w ++ [EvShowInputBox top_level_prompt])))
  /\ (forall w r, fst (promptTopLevelName h w) = Normal r ->
        (cancelled r = true <-> inputBoxAnswer h top_level_prompt = None))
  /\ (forall language content source,
        inputBoxAnswer h top_level_prompt = Some EmptyString ->
        resolved h editor doc = Normal language -> cancelled language = false ->
        pasteCallback h = inr content ->
        kind = "typescript" \/ jsonIsValid h content = true ->
        sourceTable "TopLevel" content !! kind = Some source ->
        exists opts,
          engine_calls (trace (snd (pasteAsTypes h editor kind justTypes (initial doc)))) = [opts]
          /\ sources opts = [source]
          /\ lang opts = name language).
Proof.
  unfold top_level_prompt. split; [| split].
  - intros w Ha. unfold promptTopLevelName, showInputBox, bind, ret, emit. simpl.
    now rewrite Ha.
  - intros w r Hr.
    unfold promptTopLevelName, showInputBox, bind, ret, emit in Hr. simpl in Hr.
    inversion Hr; subst; simpl.
    destruct (inputBoxAnswer h "Top-level type name?"); simpl; split; congruence.
  - intros language content source Ha Hl Hc Hclip Hvalid Hsrc.
    assert (Hguard : negb (String.eqb kind "typescript") && negb (jsonIsValid h content) = false).
    { destruct Hvalid as [-> | ->]; [reflexivity | apply andb_false_r]. }
    unfold_run.
    destruct (languageNamed h (languageId editor)) as [l|];
      [| destruct (quickPickAnswer h (languageChoices h)) as [s|] ];
      simpl_run; inversion Hl; subst; simpl_run; try congruence;
      rewrite Hclip; simpl_run; rewrite Hguard; simpl_run;
      rewrite Ha; simpl_run; cbn [JS.or_else]; rewrite Hsrc; simpl_run;
      match goal with
      | |- context [quicktype_engine h ?o] => destruct (quicktype_engine h o)
      end; simpl_run; eexists; (split; [reflexivity | split; reflexivity]).
Qed.

Lemma C8_empty_name_witness :
  exists opts,
    engine_calls (trace (snd (pasteAsTypes
        (Fixture.host (inr Fixture.sample_a_integer) None (Some EmptyString))
        (Fixture.editorOf "typescript" true 2 0 0) "json" true (initial EmptyString)))) = [opts]
    /\ sources opts = [JSONTypeSource "TopLevel" [Fixture.sample_a_integer]]
    /\ lang opts = "TypeScript".
Proof.
  apply (proj2 (proj2 (C8_empty_name_defaults
                         (Fixture.host (inr Fixture.sample_a_integer) None (Some EmptyString))
                         (Fixture.editorOf "typescript" true 2 0 0) "json" true EmptyString))
           (mkPrompted false "TypeScript") Fixture.sample_a_integer
           (JSONTypeSource "TopLevel" [Fixture.sample_a_integer]));
    try reflexivity.
  right. reflexivity.
Defined.

(** ** Invalid clipboard content *)

Lemma guard_invalid (h : Host) (kind content : string) :
  kind <> "typescript" -> jsonIsValid h content = false ->
  negb (String.eqb kind "typescript") && negb (jsonIsValid h content) = true.
Proof.
  intros Hk Hv. rewrite Hv. apply String.eqb_neq in Hk. now rewrite Hk.
Qed.

(** C1, as the code has it.  With kind [json] or [schema] and a
    clipboard that is not valid JSON, a run returns normally, leaves the
    document as it was and never calls the engine; and when
    target-language resolution is not cancelled, the last thing the run
    does is show the message "Clipboard does not contain valid JSON.". *)
Theorem C1_invalid_json_reported
    (h : Host) (editor : TextEditor) (kind : string) (justTypes : bool)
    (doc content : string) :
  kind = "json" \/ kind = "schema" ->
  pasteCallback h = inr content ->
  jsonIsValid h content = false ->
  let run := pasteAsTypes h editor kind justTypes (initial doc) in
  fst run = Normal tt
  /\ document (snd run) = doc
  /\ engine_calls (trace (snd run)) = []
  /\ edits (trace (snd run)) = []
  /\ (forall language,
        resolved h editor doc = Normal language -> cancelled language = false ->
        trace (snd run)
        = trace (snd (getTargetLanguage h editor (initial doc)))
          ++ [EvPaste; EvShowErrorMessage invalid_json_message]).
Proof.
  intros Hkind Hclip Hinvalid.
  assert (Hguard : negb (String.eqb kind "typescript") && negb (jsonIsValid h content) = true).
  { apply guard_invalid; [| exact Hinvalid]. destruct Hkind as [-> | ->]; discriminate. }
  cbv zeta. unfold_run.
  destruct (languageNamed h (languageId editor)) as [l|];
    [| destruct (quickPickAnswer h (languageChoices h)) as [s|] ];
    simpl_run; rewrite ?Hclip; simpl_run; rewrite ?Hguard; simpl_run;
    repeat split; try reflexivity; intros language Hl Hc;
    inversion Hl; subst; simpl in Hc; congruence.
Qed.

Lemma C1_invalid_json_witness :
  trace (snd (pasteAsTypes (Fixture.host (inr "{") (Some "Swift") (Some "Point"))
                (Fixture.editorOf "plaintext" true 4 0 0) "schema" false (initial "text")))
  = [EvShowQuickPick ["C#"; "Swift"; "TypeScript"]; EvPaste;
     EvShowErrorMessage invalid_json_message].
Proof.
  apply (proj2 (proj2 (proj2 (proj2
           (C1_invalid_json_reported (Fixture.host (inr "{") (Some "Swift") (Some "Point"))
              (Fixture.editorOf "plaintext" true 4 0 0) "schema" false "text" "{"
              (or_intror eq_refl) eq_refl eq_refl))))
           (mkPrompted false "Swift")); reflexivity.
Defined.

(** C1, as stated, fails: the document language is unknown, the user
    dismisses the quick pick, and the run ends without any message although
    the clipboard holds text that is not JSON. *)
Lemma C1_counterexample :
  let h := Fixture.host (inr "{") None (Some "Point") in
  let editor := Fixture.editorOf "plaintext" true 4 0 0 in
  let run := pasteAsTypes h editor "json" true (initial "text") in
  pasteCallback h = inr "{"
  /\ jsonIsValid h "{" = false
  /\ forall message, ~ In (EvShowErrorMessage message) (trace (snd run)).
Proof.
  cbv zeta. split; [reflexivity | split; [reflexivity |]].
  intros message. vm_compute. intros [H | []]. discriminate H.
Qed.

(** ** All or nothing *)

(** C2.  A run either leaves the document as it was, without any edit, or
    makes exactly one edit, as its last action, whose text is the whole
    output of the engine joined by line feeds; every failure path is of
    the first sort. *)
Theorem C2_all_or_nothing
    (h : Host) (editor : TextEditor) (kind : string) (justTypes : bool) (doc : string) :
  let run := pasteAsTypes h editor kind justTypes (initial doc) in
  let w := snd run in
  ((document w = doc /\ edits (trace w) = [])
   \/ (exists before opts result op,
         fst run = Normal tt
         /\ trace w = before ++ [EvQuicktype opts; EvEdit op]
         /\ edits before = []
         /\ quicktype_engine h opts = Rendered result
         /\ edit_text op = JS.join JS.LF (lines result)
         /\ document w = applyEdit op doc))
  /\ (FailurePath h editor kind w -> document w = doc /\ edits (trace w) = []).
Proof.
  cbv zeta. split.
  - run_paths h; try (left; split; reflexivity); right;
      first [ eexists [_; _; _], _, _, _; split; [reflexivity | split; [reflexivity |]]
            | eexists [_; _; _; _], _, _, _; split; [reflexivity | split; [reflexivity |]] ];
      (split; [reflexivity | split; [eassumption | split; [| reflexivity]]]);
      destruct (isEmpty (selection editor)); reflexivity.
  - run_paths h; try (intros _; split; reflexivity);
      intros F; exfalso;
      destruct F as [Hn Hp | err He | c Hk Hc Hv | Ha | Hj Hs Ht | o Hin Hno];
      unfold top_level_prompt in *; try congruence.
    all: try (rewrite (sourceTable_other _ _ kind Hj Hs Ht) in *; discriminate).
    all: try (cbn in Hin; destruct Hin as [<- | []]; eapply Hno; eassumption).
    all: match goal with
         | Hclip : pasteCallback _ = inr ?x |- _ => assert (c = x) by congruence; subst c
         end;
      rewrite (guard_invalid _ _ _ Hk Hv) in *; discriminate.
Qed.

Lemma C2_all_or_nothing_witness :
  let h := Fixture.host (inr "{}") None (Some "Point") in
  let editor := Fixture.editorOf "swift" false 4 1 3 in
  let w := snd (pasteAsTypes h editor "schema" false (initial "text")) in
  document w = "text" /\ edits (trace w) = [].
Proof.
  cbv zeta.
  apply (proj2 (C2_all_or_nothing (Fixture.host (inr "{}") None (Some "Point"))
                  (Fixture.editorOf "swift" false 4 1 3) "schema" false "text")).
  apply engine_exception with
    (opts := mkQuicktypeOptions "Swift" [SchemaTypeSource "Point" "{}"]
               ["Generated by https://quicktype.io"] ∅ JS.TAB).
  - vm_compute. left. reflexivity.
  - intros r. vm_compute. discriminate.
Defined.

(** ** The target language *)

(** C3.  When the quick pick answers with one of the items it was given
    and no listed language has an empty display name, target-language
    resolution yields the display name of the language [languageNamed]
    recognises, or the name the user picked among the listed languages, or
    a cancellation, after which the engine is not called; and whatever
    language the engine is called with is a supported one: it is the
    name an uncancelled resolution gave, and a display name of the list
    when [languageNamed] only recognises listed languages. *)
Theorem C3_engine_language_supported
    (h : Host) (editor : TextEditor) (kind : string) (justTypes : bool) (doc : string) :
  (forall s, quickPickAnswer h (languageChoices h) = Some s -> In s (languageChoices h)) ->
  (forall l, In l (languages h) -> displayName l <> EmptyString) ->
  let run := pasteAsTypes h editor kind justTypes (initial doc) in
  (exists r, resolved h editor doc = Normal r
     /\ ((exists l, languageNamed h (languageId editor) = Some l
                    /\ cancelled r = false /\ name r = displayName l)
         \/ (languageNamed h (languageId editor) = None
             /\ cancelled r = false
             /\ quickPickAnswer h (languageChoices h) = Some (name r)
             /\ In (name r) (map displayName (languages h)))
         \/ (languageNamed h (languageId editor) = None
             /\ quickPickAnswer h (languageChoices h) = None
             /\ cancelled r = true
             /\ engine_calls (trace (snd run)) = [])))
  /\ (forall opts, In opts (engine_calls (trace (snd run))) ->
        supported h (lang opts)
        /\ (exists r, resolved h editor doc = Normal r
                      /\ cancelled r = false /\ lang opts = name r)
        /\ ((forall id l, languageNamed h id = Some l -> In l (languages h)) ->
            In (lang opts) (map displayName (languages h)))).
Proof.
  intros Hpicked Hnonempty. cbv zeta.
  assert (Hchoice : forall s, quickPickAnswer h (languageChoices h) = Some s ->
                      In s (map displayName (languages h)) /\ JS.or_else (Some s) "types" = s).
  { intros s Hs. apply Hpicked in Hs. unfold languageChoices in Hs.
    apply (proj1 (sort_In _ _)) in Hs. split; [exact Hs |].
    apply or_else_nonempty. apply in_map_iff in Hs as (l & <- & Hl). now apply Hnonempty. }
  split.
  - unfold resolved, getTargetLanguage, showQuickPick, bind, ret, emit, initial.
    destruct (languageNamed h (languageId editor)) as [l|] eqn:Hnamed; simpl.
    + eexists. split; [reflexivity |]. left. exists l. now repeat split.
    + destruct (quickPickAnswer h (languageChoices h)) as [s|] eqn:Hpick;
        cbn [fst JS.is_undefined].
      * destruct (Hchoice s eq_refl) as [Hin Hs]. rewrite Hs.
        eexists. split; [reflexivity |]. right; left. now repeat split.
      * eexists. split; [reflexivity |]. right; right. simpl.
        repeat split; try reflexivity.
        unfold pasteAsTypes, getTargetLanguage, showQuickPick, bind, ret, emit, initial.
        rewrite Hnamed. simpl. rewrite Hpick. reflexivity.
  - intros opts. run_paths h; intros Hin; cbn in Hin; try contradiction;
      destruct Hin as [<- | []]; cbn [lang].
    all: try (split; [right; do 2 eexists; split; [eassumption | reflexivity]
                     | split; [eexists; split; [reflexivity | split; reflexivity]
                              | intros Hlisted; apply in_map, (Hlisted _ _ Hnamed)]]).
    all: match goal with
         | Hp : quickPickAnswer _ _ = Some ?s |- _ =>
             destruct (Hchoice s eq_refl) as [Hin Hs];
             change (match s with EmptyString => "types" | String _ _ => s end)
               with (JS.or_else (Some s) "types");
             rewrite Hs
         end;
      (split; [| split; [eexists; split; [reflexivity | split; reflexivity]
                        | intros _; exact Hin]]);
      left; apply in_map_iff in Hin as (l & Hl & Hin); eauto.
Qed.

(** The fallback of the code: an empty pick is taken for "types". *)
Lemma getTargetLanguage_empty_pick (h : Host) (editor : TextEditor) (doc : string) :
  languageNamed h (languageId editor) = None ->
  quickPickAnswer h (languageChoices h) = Some EmptyString ->
  resolved h editor doc = Normal (mkPrompted false "types").
Proof.
  intros Hn Hp. unfold resolved. rewrite getTargetLanguage_asked by exact Hn.
  now rewrite Hp.
Qed.

Lemma C3_engine_language_witness :
  supported (Fixture.host (inr Fixture.sample_a_integer) (Some "Swift") (Some "Point")) "Swift".
Proof.
  refine (proj1 (proj2 (C3_engine_language_supported
                   (Fixture.host (inr Fixture.sample_a_integer) (Some "Swift") (Some "Point"))
                   (Fixture.editorOf "plaintext" true 4 0 0) "json" true EmptyString _ _)
                   (engineOptions (Fixture.editorOf "plaintext" true 4 0 0) "Swift"
                      (JSONTypeSource "Point" [Fixture.sample_a_integer]) true) _)).
  - intros s [= <-]. vm_compute. right. left. reflexivity.
  - intros l [<- | [<- | [<- | []]]]; discriminate.
  - vm_compute. left. reflexivity.
Defined.

(** ** The edit *)

Lemma take_take_append (n : nat) (doc rest : string) :
  n <= String.length doc -> take n (take n doc +:+ rest) = take n doc.
Proof.
  intros H. rewrite <- (take_length n doc H) at 1. apply take_append_exact.
Qed.

Lemma drop_take_append (n : nat) (doc text rest : string) :
  n <= String.length doc ->
  drop (n + String.length text) (take n doc +:+ text +:+ rest) = rest.
Proof.
  intros H. rewrite <- (take_length n doc H) at 1.
  rewrite <- length_append, <- append_assoc. apply drop_append_exact.
Qed.

Lemma applyEdit_selection (sel : Selection) (text doc : string) :
  applyEdit (if isEmpty sel then Insert (start sel) text
             else Replace (mkRange (start sel) (end_ sel)) text) doc
  = take (start sel) doc +:+ text +:+ drop (end_ sel) doc.
Proof.
  destruct (isEmpty sel) eqn:E; cbn; [rewrite <- (selection_empty _ E) |]; reflexivity.
Qed.

Lemma editedWith_intro (editor : TextEditor) (doc text : string) (log : list Event) :
  edits log
  = [if isEmpty (selection editor) then Insert (start (selection editor)) text
     else Replace (newRange (start (selection editor)) (end_ (selection editor))) text] ->
  editedWith editor doc
    (mkWorld (applyEdit (if isEmpty (selection editor)
                         then Insert (start (selection editor)) text
                         else Replace (newRange (start (selection editor))
                                         (end_ (selection editor))) text) doc)
             log)
    text.
Proof.
  rewrite newRange_selection. intros Hlog. unfold editedWith. cbv zeta.
  cbn [document trace]. rewrite applyEdit_selection.
  split; [exact Hlog |]. split; [apply selection_empty |]. split; [reflexivity |].
  intros Hlen. pose proof (selection_ordered (selection editor)).
  split; [apply take_take_append | apply drop_take_append]; lia.
Qed.

(** C9.  When the engine renders, the run makes its edit, and the edit is
    the one on the selection with the generated text, the lines of the
    engine joined by line feeds: an insertion at the start of the
    selection when it is empty, a replacement of the range from its start
    to its end otherwise.  The document after the run is the text before
    the start of the selection, the generated text, and the text after the
    end of the selection; what lies outside the selection is as it was.
    A run makes no other edit: when it does not make this one, the
    document is as it was. *)
Theorem C9_edit_confined_to_selection
    (h : Host) (editor : TextEditor) (kind : string) (justTypes : bool) (doc : string) :
  let w := snd (pasteAsTypes h editor kind justTypes (initial doc)) in
  (forall language content typed source result,
     resolved h editor doc = Normal language -> cancelled language = false ->
     pasteCallback h = inr content ->
     kind = "typescript" \/ jsonIsValid h content = true ->
     inputBoxAnswer h top_level_prompt = Some typed ->
     sourceTable (JS.or_else (Some typed) "TopLevel") content !! kind = Some source ->
     quicktype_engine h (engineOptions editor (name language) source justTypes)
     = Rendered result ->
     editedWith editor doc w (JS.join JS.LF (lines result)))
  /\ ((document w = doc /\ edits (trace w) = [])
      \/ (exists opts result,
            engine_calls (trace w) = [opts]
            /\ quicktype_engine h opts = Rendered result
            /\ editedWith editor doc w (JS.join JS.LF (lines result)))).
Proof.
  cbv zeta. split.
  - unfold top_level_prompt, engineOptions.
    intros language content typed source result Hl Hc Hclip Hvalid Ha Hsrc He.
    assert (Hguard : negb (String.eqb kind "typescript") && negb (jsonIsValid h content) = false).
    { destruct Hvalid as [-> | ->]; [reflexivity | apply andb_false_r]. }
    unfold_run.
    destruct (languageNamed h (languageId editor)) as [l|];
      [| destruct (quickPickAnswer h (languageChoices h)) as [s|] ];
      simpl_run; injection Hl as <-; simpl_run; try congruence;
      rewrite Hclip; simpl_run; rewrite Hguard; simpl_run;
      rewrite Ha; simpl_run; rewrite Hsrc; simpl_run;
      match goal with
      | |- context [quicktype_engine h ?o] =>
          destruct (quicktype_engine h o) as [r | e | e] eqn:Hengine
      end;
      first [ pose proof (eq_trans (eq_sym Hengine) He) as Heq | pose proof He as Heq ];
      try discriminate Heq; injection Heq as ->; simpl_run;
      apply editedWith_intro; cbn; destruct (isEmpty (selection editor)); reflexivity.
  - run_paths h; try (left; split; reflexivity); right;
      do 2 eexists; (split; [reflexivity |]); (split; [eassumption |]);
      apply editedWith_intro; cbn; destruct (isEmpty (selection editor)); reflexivity.
Qed.

Lemma C9_edit_confined_witness :
  document (snd (pasteAsTypes
                   (Fixture.host (inr Fixture.sample_a_integer) None (Some "Point"))
                   (Fixture.editorOf "swift" true 2 11 4) "json" true
                   (initial "let x = old; // kept")))
  = "let " +:+ JS.join JS.LF ["// Generated by https://quicktype.io";
                              "type Point {"; "  a: integer;"; "}"]
     +:+ "; // kept".
Proof.
  refine (proj1 (proj2 (proj2
           (proj1 (C9_edit_confined_to_selection
                     (Fixture.host (inr Fixture.sample_a_integer) None (Some "Point"))
                     (Fixture.editorOf "swift" true 2 11 4) "json" true
                     "let x = old; // kept")
              (mkPrompted false "Swift") Fixture.sample_a_integer "Point"
              (JSONTypeSource "Point" [Fixture.sample_a_integer])
              (mkResult ["// Generated by https://quicktype.io";
                         "type Point {"; "  a: integer;"; "}"])
              eq_refl eq_refl eq_refl (or_intror eq_refl) eq_refl eq_refl _)))).
  vm_compute. reflexivity.
Defined.

(** ** TypeScript input *)

(** C10.  With kind [typescript] nothing is checked before the engine is
    called: the run is the same whatever [JSON.parse] makes of the
    clipboard, any clipboard text reaches the engine as the one source
    file, and a failure of the engine meets nothing but the [catch] around
    the call, which shows a rejection as an error message and does not see
    a fault. *)
Theorem C10_typescript_not_validated
    (h : Host) (editor : TextEditor) (justTypes : bool) (doc : string) :
  let run := pasteAsTypes h editor "typescript" justTypes (initial doc) in
  (forall parse,
     pasteAsTypes (withParser h parse) editor "typescript" justTypes (initial doc) = run)
  /\ (forall language content a,
        resolved h editor doc = Normal language -> cancelled language = false ->
        pasteCallback h = inr content ->
        inputBoxAnswer h top_level_prompt = Some a ->
        let opts :=
          engineOptions editor (name language)
            (TypeScriptTypeSource {[ (JS.or_else (Some a) "TopLevel" +:+ ".ts") := content ]})
            justTypes in
        engine_calls (trace (snd run)) = [opts]
        /\ (forall e, quicktype_engine h opts = EngineRejected e ->
              fst run = Normal tt /\ document (snd run) = doc
              /\ exists before,
                   trace (snd run) = before ++ [EvQuicktype opts; EvShowErrorMessage e])
        /\ (forall e, quicktype_engine h opts = EngineFault e ->
              fst run = Uncaught e /\ document (snd run) = doc
              /\ exists before, trace (snd run) = before ++ [EvQuicktype opts])).
Proof.
  cbv zeta. split.
  - intros parse. unfold withParser. unfold_run. cbn. reflexivity.
  - intros language content a Hl Hc Hclip Ha. unfold top_level_prompt, engineOptions in *.
    unfold_run.
    destruct (languageNamed h (languageId editor)) as [l|];
      [| destruct (quickPickAnswer h (languageChoices h)) as [s|] ];
      simpl_run; injection Hl as <-; simpl_run; try congruence;
      rewrite Hclip; simpl_run; rewrite String.eqb_refl; simpl_run;
      rewrite Ha; simpl_run;
      rewrite sourceTable_typescript; simpl_run;
      match goal with
      | |- context [quicktype_engine h ?o] =>
          destruct (quicktype_engine h o) as [r | e' | e'] eqn:Hengine
      end; simpl_run;
      (split; [reflexivity |]);
      (split; intros e He;
       first [ pose proof (eq_trans (eq_sym Hengine) He) as Heq | pose proof He as Heq ];
       try discriminate Heq; injection Heq as <-);
      (split; [reflexivity | split; [reflexivity |]]);
      first [ eexists [_; _; _]; reflexivity | eexists [_; _; _; _]; reflexivity
            | eexists [_; _]; reflexivity ].
Qed.

Lemma C10_typescript_witness :
  let h := Fixture.host (inr "interface Point { x: number") None (Some "Point") in
  let editor := Fixture.editorOf "swift" true 4 0 0 in
  let run := pasteAsTypes h editor "typescript" false (initial "text") in
  fst run = Normal tt /\ document (snd run) = "text"
  /\ exists before,
       trace (snd run)
       = before ++ [EvQuicktype
                      (engineOptions editor "Swift"
                         (TypeScriptTypeSource
                            {[ "Point.ts" := "interface Point { x: number" ]}) false);
                    EvShowErrorMessage "only JSON samples are rendered here"].
Proof.
  cbv zeta.
  refine (proj1 (proj2 (proj2 (C10_typescript_not_validated
            (Fixture.host (inr "interface Point { x: number") None (Some "Point"))
            (Fixture.editorOf "swift" true 4 0 0) false "text")
            (mkPrompted false "Swift") "interface Point { x: number" "Point"
            eq_refl eq_refl eq_refl eq_refl))
            "only JSON samples are rendered here" _).
  reflexivity.
Defined.

(** ** Indentation *)

Lemma emit_nesting (indentation : string) :
  forall (s : Core.Source) (level : nat),
    Core.emit indentation level s
    = map (indented indentation) (Core.nesting level s).
Proof.
  fix IH 1. intros [text | body] level.
  - reflexivity.
  - cbn [Core.emit Core.nesting].
    induction body as [|x rest IHrest]; [reflexivity |].
    cbn [map]. rewrite map_app, <- IH, <- IHrest. reflexivity.
Qed.

Lemma emitAll_nesting (indentation : string) (level : nat) (ss : list Core.Source) :
  Core.emitAll indentation level ss
  = map (indented indentation) (flat_map (Core.nesting level) ss).
Proof.
  unfold Core.emitAll. induction ss as [|x rest IH]; [reflexivity |].
  cbn [flat_map]. rewrite map_app, <- emit_nesting, <- IH. reflexivity.
Qed.

(** C6.  The indentation the engine is called with is [tabSize] spaces
    when the editor inserts spaces and one tab character otherwise; and
    the renderer of the specification writes every line of a declaration
    as that string, repeated once per nesting level, followed by the text
    of the line. *)
Theorem C6_indentation_honored
    (h : Host) (editor : TextEditor) (kind : string) (justTypes : bool) (doc : string) :
  (forall opts,
     In opts (engine_calls (trace (snd (pasteAsTypes h editor kind justTypes (initial doc))))) ->
     (insertSpaces (options editor) = true ->
        indentation opts = JS.repeat " " (tabSize (options editor))
        /\ String.length (indentation opts) = tabSize (options editor)
        /\ forall i c, String.get i (indentation opts) = Some c -> c = " "%char)
     /\ (insertSpaces (options editor) = false -> indentation opts = JS.TAB))
  /\ (forall supported graph root o ls,
        Core.render supported graph root o = inr ls ->
        exists l,
          find (fun l => String.eqb (Core.identifier l) (Core.targetLanguage o)) supported
          = Some l
          /\ ls = map (Core.commentLine l) (Core.leadingCommentLines o)
                  ++ map (indented (Core.indentationString o))
                       (flat_map (Core.nesting 0)
                          (Core.declarations l (Core.typesOnly o) root graph))).
Proof.
  split.
  - intros opts. run_paths h; intros Hin; cbn in Hin; try contradiction;
      destruct Hin as [<- | []]; cbn [indentation]; unfold editorIndentation;
      (split; intros Hs; rewrite Hs; [| reflexivity]);
      (split; [reflexivity | split; [| apply repeat_space_chars]]);
      rewrite repeat_length; cbn; lia.
  - intros supported graph root o ls. unfold Core.render.
    destruct (find _ supported) as [l|]; [| discriminate].
    destruct (Core.typesOnly o && Core.requiresCodec l); [discriminate |].
    intros [= <-]. exists l. split; [reflexivity |].
    now rewrite emitAll_nesting.
Qed.

Lemma C6_indentation_witness :
  let editor := Fixture.editorOf "typescript" true 2 0 0 in
  let opts := engineOptions editor "TypeScript"
                (JSONTypeSource "Point" [Fixture.sample_a_integer]) true in
  indentation opts = "  " /\ String.length (indentation opts) = 2.
Proof.
  cbv zeta.
  destruct (proj1 (proj1 (C6_indentation_honored
              (Fixture.host (inr Fixture.sample_a_integer) None (Some "Point"))
              (Fixture.editorOf "typescript" true 2 0 0) "json" true EmptyString)
              (engineOptions (Fixture.editorOf "typescript" true 2 0 0) "TypeScript"
                 (JSONTypeSource "Point" [Fixture.sample_a_integer]) true)
              (or_introl eq_refl)) eq_refl) as (Hi & Hl & _).
  split; [exact Hi | exact Hl].
Defined.

(** ** Unification of primitive kinds *)

Example core_run_lines :
  Core.run [Fixture.plainTypes "plain"] "Top"
    [Fixture.sample_a_integer; Fixture.sample_a_string]
    (Core.mkRenderOptions "plain" "  " true ["from two samples"])
  = inr ["// from two samples"; "type Top {"; "  a: integer | string;"; "}"].
Proof. vm_compute. reflexivity. Qed.

Example core_run_optional_fields :
  Core.infer ["{" +:+ Fixture.quoted "a" +:+ ": 1}"; "{" +:+ Fixture.quoted "b" +:+ ": 2}"]
  = inr (Core.Object [("a", (true, Core.Primitive Core.KInteger));
                      ("b", (true, Core.Primitive Core.KInteger))]).
Proof. vm_compute. reflexivity. Qed.

Example core_run_parse_error :
  Core.infer ["{" +:+ Fixture.quoted "a" +:+ ": }"] = inl Core.ParseError.
Proof. vm_compute. reflexivity. Qed.

Lemma joinPrimitive_widened (a b j : Core.PrimitiveKind) :
  Core.joinPrimitive a b = Some j ->
  widened a j /\ widened b j /\ forall x, widened x a -> widened x j.
Proof.
  unfold widened.
  destruct a, b; cbn; intros [= <-]; repeat split; auto;
    intros x [-> | [-> [=]]]; auto.
Qed.

Lemma unify_primitive (k : Core.PrimitiveKind) (b : Core.Node) :
  Core.unify (Core.Primitive k) b
  = Core.absorb (Core.mergePrimitive k) (Core.Primitive k) b.
Proof. reflexivity. Qed.

Section AddPrimitive.

Variable k : Core.PrimitiveKind.

Lemma addMember_primitives (bs : list Core.Node) :
  Forall isPrimitive bs ->
  Forall isPrimitive (Core.addMember (Core.mergePrimitive k) (Core.Primitive k) bs).
Proof.
  induction 1 as [| b bs [k' ->] Hbs IH]; cbn.
  - repeat constructor. now exists k.
  - destruct (Core.joinPrimitive k' k) as [j|]; cbn.
    + constructor; [now exists j | exact Hbs].
    + constructor; [now exists k' | exact IH].
Qed.

Lemma addMember_new (bs : list Core.Node) :
  Forall isPrimitive bs ->
  exists k', widened k k' /\ In (Core.Primitive k') (Core.addMember (Core.mergePrimitive k) (Core.Primitive k) bs).
Proof.
  induction 1 as [| b bs [k' ->] Hbs IH]; cbn.
  - exists k. split; [now left | now left].
  - destruct (Core.joinPrimitive k' k) as [j|] eqn:Hj; cbn.
    + apply joinPrimitive_widened in Hj as (_ & Hk & _).
      exists j. split; [exact Hk | now left].
    + destruct IH as (x & Hx & Hin). exists x. split; [exact Hx | now right].
Qed.

Lemma addMember_old (bs : list Core.Node) (x x' : Core.PrimitiveKind) :
  widened x x' -> In (Core.Primitive x') bs ->
  exists x'', widened x x''
              /\ In (Core.Primitive x'') (Core.addMember (Core.mergePrimitive k) (Core.Primitive k) bs).
Proof.
  intros Hx. induction bs as [| b bs IH]; cbn; [intros [] |].
  intros [-> | Hin].
  - cbn. destruct (Core.joinPrimitive x' k) as [j|] eqn:Hj; cbn.
    + apply joinPrimitive_widened in Hj as (_ & _ & Hw).
      exists j. split; [now apply Hw | now left].
    + exists x'. split; [exact Hx | now left].
  - destruct (Core.mergePrimitive k b) as [t|].
    + exists x'. split; [exact Hx | now right].
    + destruct (IH Hin) as (y & Hy & Hin'). exists y. split; [exact Hy | now right].
Qed.

Lemma unify_primitive_primitivesOnly (t : Core.Node) :
  primitivesOnly t -> primitivesOnly (Core.unify (Core.Primitive k) t).
Proof.
  rewrite unify_primitive. intros [[k' ->] | (ms & -> & Hms)]; cbn.
  - destruct (Core.joinPrimitive k' k) as [j|]; cbn.
    + left. now exists j.
    + right. eexists. split; [reflexivity |].
      repeat constructor; [now exists k' | now exists k].
  - right. eexists. split; [reflexivity |]. now apply addMember_primitives.
Qed.

Lemma unify_primitive_keeps_new (t : Core.Node) :
  primitivesOnly t -> keeps (Core.unify (Core.Primitive k) t) k.
Proof.
  rewrite unify_primitive. intros [[k' ->] | (ms & -> & Hms)]; cbn.
  - destruct (Core.joinPrimitive k' k) as [j|] eqn:Hj; cbn.
    + apply joinPrimitive_widened in Hj as (_ & Hk & _).
      exists j. split; [exact Hk | now left].
    + exists k. split; [now left |]. right. eexists. split; [reflexivity |].
      right. now left.
  - destruct (addMember_new ms Hms) as (x & Hx & Hin).
    exists x. split; [exact Hx |]. right. eexists. split; [reflexivity | exact Hin].
Qed.

Lemma unify_primitive_keeps_old (t : Core.Node) (x : Core.PrimitiveKind) :
  primitivesOnly t -> keeps t x -> keeps (Core.unify (Core.Primitive k) t) x.
Proof.
  rewrite unify_primitive.
  intros _ (x' & Hx & [-> | (ms & -> & Hin)]); cbn.
  - destruct (Core.joinPrimitive x' k) as [j|] eqn:Hj; cbn.
    + apply joinPrimitive_widened in Hj as (_ & _ & Hw).
      exists j. split; [now apply Hw | now left].
    + exists x'. split; [exact Hx |]. right. eexists. split; [reflexivity |]. now left.
  - destruct (addMember_old ms x x' Hx Hin) as (y & Hy & Hin').
    exists y. split; [exact Hy |]. right. eexists. split; [reflexivity | exact Hin'].
Qed.

End AddPrimitive.

Lemma fold_unify_primitives (ks : list Core.PrimitiveKind) (t : Core.Node) :
  primitivesOnly t ->
  let r := fold_left (fun acc x => Core.unify x acc) (map Core.Primitive ks) t in
  primitivesOnly r
  /\ (forall x, keeps t x -> keeps r x)
  /\ (forall x, In x ks -> keeps r x).
Proof.
  revert t. induction ks as [| k ks IH]; intros t Ht; cbn.
  - repeat split; [exact Ht | auto | intros x []].
  - destruct (IH (Core.unify (Core.Primitive k) t) (unify_primitive_primitivesOnly k t Ht))
      as (Hp & Hold & Hnew).
    repeat split; [exact Hp | |].
    + intros x Hx. apply Hold. now apply unify_primitive_keeps_old.
    + intros x [<- | Hin]; [| now apply Hnew].
      apply Hold. now apply unify_primitive_keeps_new.
Qed.

(** C7.  The samples [{"a": 1}] and [{"a": "x"}] of one name are
    inferred as an object whose field [a] is the Union of integer and
    string, whatever integer and string the two samples hold; two
    primitive kinds that differ (other than integer beside number) become
    the Union of the two; and however many primitive kinds meet, the
    result is a primitive kind or a Union of primitive kinds that keeps
    every one of them. *)
Theorem C7_conflicting_primitives_union :
  Core.infer [Fixture.sample_a_integer; Fixture.sample_a_string]
  = inr (Core.Object [("a", (false, Core.Union [Core.Primitive Core.KInteger;
                                                Core.Primitive Core.KString]))])
  /\ (forall m e s, Core.integral m e = true ->
        Core.unifyAll [Core.typeOf (Core.shapeOf (JS.JObject [("a", JS.JNumber m e)]));
                       Core.typeOf (Core.shapeOf (JS.JObject [("a", JS.JString s)]))]
        = Some (Core.Object [("a", (false, Core.Union [Core.Primitive Core.KInteger;
                                                       Core.Primitive Core.KString]))]))
  /\ (forall k1 k2, Core.joinPrimitive k1 k2 = None ->
        Core.unify (Core.Primitive k2) (Core.Primitive k1)
        = Core.Union [Core.Primitive k1; Core.Primitive k2])
  /\ (forall ks t, Core.unifyAll (map Core.Primitive ks) = Some t ->
        primitivesOnly t /\ forall k, In k ks -> keeps t k).
Proof.
  split; [vm_compute; reflexivity |].
  split; [intros m e s Hi; cbn; rewrite Hi; reflexivity |].
  split.
  - intros k1 k2 Hj. cbn. now rewrite Hj.
  - intros [| k ks] t; cbn; [discriminate |]. intros [= <-].
    assert (Hk : primitivesOnly (Core.Primitive k)) by (left; now exists k).
    destruct (fold_unify_primitives ks (Core.Primitive k) Hk) as (Hp & Hold & Hnew).
    split; [exact Hp |].
    intros x [<- | Hin]; [| now apply Hnew].
    apply Hold. exists k. split; [now left | now left].
Qed.

Lemma C7_conflicting_primitives_witness :
  keeps (Core.Union [Core.Primitive Core.KNumber; Core.Primitive Core.KString;
                     Core.Primitive Core.KNull])
        Core.KInteger.
Proof.
  refine (proj2 (proj2 (proj2 (proj2 C7_conflicting_primitives_union))
            [Core.KInteger; Core.KString; Core.KNull; Core.KNumber] _ eq_refl)
            Core.KInteger _).
  left. reflexivity.
Defined.

(* ===================================================================== *)
(** * More on the runs of the extension *)
(* ===================================================================== *)

Ltac sorted_phases := cbn [map phase]; repeat constructor.

(** X1.  The calls of a run come in the order of the code, each at most
    once: quick pick, clipboard, name prompt, telemetry, engine, and then
    an edit or an error message, never both and never followed by
    anything. *)
Theorem run_log_ordered
    (h : Host) (editor : TextEditor) (kind : string) (justTypes : bool) (doc : string) :
  StronglySorted lt
    (map phase (trace (snd (pasteAsTypes h editor kind justTypes (initial doc))))).
Proof. run_paths h; sorted_phases. Qed.

(** X2.  Telemetry goes with the engine call and with nothing else: a run
    sends one event per engine call, the event "paste <kind>" with the
    language the engine is called with, and none in a run that does not
    reach the engine. *)
Theorem telemetry_only_with_engine
    (h : Host) (editor : TextEditor) (kind : string) (justTypes : bool) (doc : string) :
  let w := snd (pasteAsTypes h editor kind justTypes (initial doc)) in
  telemetry (trace w)
  = map (fun o => ("paste " +:+ kind, lang o)) (engine_calls (trace w)).
Proof. cbv zeta. run_paths h; reflexivity. Qed.

(** X3.  The renderer options of an engine call are the two that ask for
    types only, "just-types" and "features", when [justTypes] is set, and
    none at all when it is not. *)
Theorem renderer_options_of_call
    (h : Host) (editor : TextEditor) (kind : string) (justTypes : bool)
    (doc : string) (opts : Options) :
  In opts (engine_calls (trace (snd (pasteAsTypes h editor kind justTypes (initial doc))))) ->
  rendererOptions opts !! "just-types" = (if justTypes then Some "true" else None)
  /\ rendererOptions opts !! "features" = (if justTypes then Some "just-types" else None)
  /\ (forall key, key <> "just-types" -> key <> "features" ->
        rendererOptions opts !! key = None)
  /\ leadingComments opts = ["Generated by https://quicktype.io"].
Proof.
  run_paths h; intros Hin; cbn in Hin; try contradiction;
    destruct Hin as [<- | []]; cbn [rendererOptions leadingComments];
    unfold makeRendererOptions; destruct justTypes;
    (repeat split; try reflexivity; intros key H1 H2;
     rewrite ?lookup_insert_ne by congruence; apply lookup_empty).
Qed.

Lemma renderer_options_witness :
  rendererOptions (engineOptions (Fixture.editorOf "typescript" true 2 0 0) "TypeScript"
                     (JSONTypeSource "Point" [Fixture.sample_a_integer]) true)
    !! "just-types" = Some "true".
Proof.
  exact (proj1 (renderer_options_of_call
                  (Fixture.host (inr Fixture.sample_a_integer) None (Some "Point"))
                  (Fixture.editorOf "typescript" true 2 0 0) "json" true EmptyString
                  (engineOptions (Fixture.editorOf "typescript" true 2 0 0) "TypeScript"
                     (JSONTypeSource "Point" [Fixture.sample_a_integer]) true)
                  (or_introl eq_refl))).
Defined.

Lemma repeat_space_empty (n : nat) : JS.repeat " " n = EmptyString <-> n = 0.
Proof.
  split.
  - intros H. apply (f_equal String.length) in H. rewrite repeat_length in H.
    cbn in H. lia.
  - intros ->. reflexivity.
Qed.

(** X4.  The indentation of an engine call is the empty string exactly
    when the editor inserts spaces with a tab size of 0. *)
Theorem indentation_empty_iff
    (h : Host) (editor : TextEditor) (kind : string) (justTypes : bool)
    (doc : string) (opts : Options) :
  In opts (engine_calls (trace (snd (pasteAsTypes h editor kind justTypes (initial doc))))) ->
  (indentation opts = EmptyString
   <-> insertSpaces (options editor) = true /\ tabSize (options editor) = 0).
Proof.
  run_paths h; intros Hin; cbn in Hin; try contradiction;
    destruct Hin as [<- | []]; cbn [indentation]; unfold editorIndentation;
    destruct (insertSpaces (options editor));
    rewrite ?repeat_space_empty; split; try tauto; try (intros [[=] _]);
    try discriminate.
Qed.

Lemma indentation_empty_witness :
  indentation (engineOptions (Fixture.editorOf "typescript" true 0 0 0) "TypeScript"
                 (JSONTypeSource "Point" [Fixture.sample_a_integer]) false)
  = EmptyString.
Proof.
  apply (proj2 (indentation_empty_iff
                  (Fixture.host (inr Fixture.sample_a_integer) None (Some "Point"))
                  (Fixture.editorOf "typescript" true 0 0 0) "json" false EmptyString
                  (engineOptions (Fixture.editorOf "typescript" true 0 0 0) "TypeScript"
                     (JSONTypeSource "Point" [Fixture.sample_a_integer]) false)
                  (or_introl eq_refl))).
  split; reflexivity.
Defined.

(** ** What reaches the engine *)

Lemma sourceTable_texts (n content kind : string) (s : TypeSource) :
  sourceTable n content !! kind = Some s -> sourceTexts s = [content].
Proof.
  unfold sourceTable. intros H.
  destruct (decide (kind = "typescript")) as [->|Ht].
  { rewrite lookup_insert_eq in H. injection H as <-. cbn.
    now rewrite map_to_list_singleton. }
  rewrite lookup_insert_ne in H by congruence.
  destruct (decide (kind = "schema")) as [->|Hs].
  { rewrite lookup_insert_eq in H. now injection H as <-. }
  rewrite lookup_insert_ne in H by congruence.
  destruct (decide (kind = "json")) as [->|Hj].
  { rewrite lookup_insert_eq in H. now injection H as <-. }
  rewrite lookup_insert_ne in H by congruence.
  rewrite lookup_empty in H. discriminate.
Qed.

Lemma sourceTable_names (n content kind : string) (s : TypeSource) :
  sourceTable n content !! kind = Some s ->
  sourceNames s = [if String.eqb kind "typescript" then n +:+ ".ts" else n].
Proof.
  unfold sourceTable. intros H.
  destruct (decide (kind = "typescript")) as [->|Ht].
  { rewrite lookup_insert_eq in H. injection H as <-. cbn.
    now rewrite map_to_list_singleton. }
  rewrite lookup_insert_ne in H by congruence.
  apply String.eqb_neq in Ht as Hb. rewrite Hb.
  destruct (decide (kind = "schema")) as [->|Hs].
  { rewrite lookup_insert_eq in H. now injection H as <-. }
  rewrite lookup_insert_ne in H by congruence.
  destruct (decide (kind = "json")) as [->|Hj].
  { rewrite lookup_insert_eq in H. now injection H as <-. }
  rewrite lookup_insert_ne in H by congruence.
  rewrite lookup_empty in H. discriminate.
Qed.

Lemma guard_passed (h : Host) (kind content : string) :
  negb (String.eqb kind "typescript") && negb (jsonIsValid h content) = false ->
  kind <> "typescript" -> jsonIsValid h content = true.
Proof.
  intros Hg Hk. apply String.eqb_neq in Hk. rewrite Hk in Hg. cbn in Hg.
  now destruct (jsonIsValid h content).
Qed.

(** X5.  The engine is called with one source: it is of the kind the run
    was started with, it carries the text of the clipboard and nothing
    else, and for every kind but [typescript] that text is one
    [JSON.parse] accepts. *)
Theorem source_of_call
    (h : Host) (editor : TextEditor) (kind : string) (justTypes : bool)
    (doc : string) (opts : Options) :
  In opts (engine_calls (trace (snd (pasteAsTypes h editor kind justTypes (initial doc))))) ->
  exists content source,
    pasteCallback h = inr content
    /\ sources opts = [source]
    /\ sourceKind source = kind
    /\ sourceTexts source = [content]
    /\ (kind <> "typescript" -> jsonIsValid h content = true).
Proof.
  run_paths h; intros Hin; cbn in Hin; try contradiction;
    destruct Hin as [<- | []]; cbn [sources];
    do 2 eexists; (split; [reflexivity |]); (split; [reflexivity |]);
    (split; [eapply sourceTable_kind; eassumption |]);
    (split; [eapply sourceTable_texts; eassumption |]);
    now apply guard_passed.
Qed.

Lemma source_of_call_witness :
  exists content source,
    pasteCallback (Fixture.host (inr "{}") None (Some "Point")) = inr content
    /\ sources (engineOptions (Fixture.editorOf "swift" true 4 0 0) "Swift"
                  (SchemaTypeSource "Point" "{}") false) = [source]
    /\ sourceKind source = "schema"
    /\ sourceTexts source = [content]
    /\ ("schema" <> "typescript"
        -> jsonIsValid (Fixture.host (inr "{}") None (Some "Point")) content = true).
Proof.
  apply (source_of_call (Fixture.host (inr "{}") None (Some "Point"))
           (Fixture.editorOf "swift" true 4 0 0) "schema" false EmptyString).
  vm_compute. left. reflexivity.
Defined.

Lemma or_else_default (x : option string) (d : string) :
  d <> EmptyString -> JS.or_else x d <> EmptyString.
Proof. destruct x as [[|c s]|]; cbn; congruence. Qed.

(** X6.  The name a source is handed over under is never empty: it is
    what the user typed, or "TopLevel" when the user typed nothing; a
    TypeScript source is the one file of that name with ".ts" appended. *)
Theorem source_name_of_call
    (h : Host) (editor : TextEditor) (kind : string) (justTypes : bool)
    (doc : string) (opts : Options) :
  In opts (engine_calls (trace (snd (pasteAsTypes h editor kind justTypes (initial doc))))) ->
  exists typed source,
    inputBoxAnswer h top_level_prompt = Some typed
    /\ sources opts = [source]
    /\ JS.or_else (Some typed) "TopLevel" <> EmptyString
    /\ (typed <> EmptyString -> JS.or_else (Some typed) "TopLevel" = typed)
    /\ sourceNames source
       = [if String.eqb kind "typescript"
          then JS.or_else (Some typed) "TopLevel" +:+ ".ts"
          else JS.or_else (Some typed) "TopLevel"].
Proof.
  unfold top_level_prompt.
  run_paths h; intros Hin; cbn in Hin; try contradiction;
    destruct Hin as [<- | []]; cbn [sources];
    do 2 eexists; (split; [reflexivity |]); (split; [reflexivity |]);
    (split; [apply or_else_default; discriminate |]);
    (split; [apply or_else_nonempty |]);
    eapply sourceTable_names; eassumption.
Qed.

Lemma source_name_of_call_witness :
  exists typed source,
    inputBoxAnswer (Fixture.host (inr "{}") None (Some EmptyString)) top_level_prompt
    = Some typed
    /\ sources (engineOptions (Fixture.editorOf "swift" true 4 0 0) "Swift"
                  (JSONTypeSource "TopLevel" ["{}"]) false) = [source]
    /\ JS.or_else (Some typed) "TopLevel" <> EmptyString
    /\ (typed <> EmptyString -> JS.or_else (Some typed) "TopLevel" = typed)
    /\ sourceNames source
       = [if String.eqb "json" "typescript"
          then JS.or_else (Some typed) "TopLevel" +:+ ".ts"
          else JS.or_else (Some typed) "TopLevel"].
Proof.
  apply (source_name_of_call (Fixture.host (inr "{}") None (Some EmptyString))
           (Fixture.editorOf "swift" true 4 0 0) "json" false EmptyString).
  vm_compute. left. reflexivity.
Defined.

(** ** How a run ends *)

(** X7.  A run ends in a rejected promise exactly when the clipboard
    cannot be read after the language was resolved, with the error of the
    clipboard, and then nothing was shown to the user; a run is cut short
    by a fault exactly when the engine it called faulted; every other run
    returns. *)
Theorem run_completion
    (h : Host) (editor : TextEditor) (kind : string) (justTypes : bool) (doc : string) :
  let run := pasteAsTypes h editor kind justTypes (initial doc) in
  (forall e, fst run = Rejected e
             <-> (exists r, resolved h editor doc = Normal r /\ cancelled r = false)
                 /\ pasteCallback h = inl e)
  /\ (forall e, fst run = Uncaught e
                <-> exists opts, engine_calls (trace (snd run)) = [opts]
                                 /\ quicktype_engine h opts = EngineFault e)
  /\ (forall e, fst run = Rejected e ->
        messages (trace (snd run)) = []
        /\ document (snd run) = doc
        /\ trace (snd run)
           = trace (snd (getTargetLanguage h editor (initial doc))) ++ [EvPaste]).
Proof.
  cbv zeta. split; [| split].
  - intros e. run_paths h; (split; [intros H | intros [(r & Hr & Hc) H]]);
      try discriminate H; try (injection Hr as <-; discriminate Hc).
    all: try (injection H as <-; split; [eexists; split; reflexivity | reflexivity]).
    all: injection H as <-; reflexivity.
  - intros e. run_paths h; (split; [intros H | intros (o & Ho & He)]);
      try discriminate H; try discriminate Ho.
    all: try (injection H as <-; eexists; split; [reflexivity | assumption]).
    all: injection Ho as <-;
      match goal with
      | Hengine : quicktype_engine _ _ = _ |- _ =>
          pose proof (eq_trans (eq_sym Hengine) He) as Heq;
          first [discriminate Heq | injection Heq as <-; reflexivity]
      end.
  - intros e. run_paths h; intros H; try discriminate H; repeat split.
Qed.

Lemma run_completion_witness :
  fst (pasteAsTypes (Fixture.host (inl "clipboard busy") None (Some "Point"))
         (Fixture.editorOf "swift" true 4 0 0) "json" true (initial "text"))
  = Rejected "clipboard busy".
Proof.
  apply (proj2 (proj1 (run_completion
                  (Fixture.host (inl "clipboard busy") None (Some "Point"))
                  (Fixture.editorOf "swift" true 4 0 0) "json" true "text")
                  "clipboard busy")).
  split; [exists (mkPrompted false "Swift"); split; reflexivity | reflexivity].
Defined.

(** X8.  Whatever the kind, what the engine does decides the end of the
    run that called it: its output is the text of the one edit and no
    message is shown; its rejection is the one message shown, as it is,
    and nothing is edited; its fault is neither shown nor caught. *)
Theorem engine_outcome_of_run
    (h : Host) (editor : TextEditor) (kind : string) (justTypes : bool)
    (doc : string) (opts : Options) :
  let run := pasteAsTypes h editor kind justTypes (initial doc) in
  In opts (engine_calls (trace (snd run))) ->
  match quicktype_engine h opts with
  | Rendered result =>
      fst run = Normal tt
      /\ messages (trace (snd run)) = []
      /\ map edit_text (edits (trace (snd run))) = [JS.join JS.LF (lines result)]
  | EngineRejected e =>
      fst run = Normal tt
      /\ messages (trace (snd run)) = [e]
      /\ edits (trace (snd run)) = []
      /\ document (snd run) = doc
  | EngineFault e =>
      fst run = Uncaught e
      /\ messages (trace (snd run)) = []
      /\ edits (trace (snd run)) = []
      /\ document (snd run) = doc
  end.
Proof.
  cbv zeta. run_paths h; intros Hin; cbn in Hin; try contradiction;
    destruct Hin as [<- | []];
    match goal with
    | H1 : quicktype_engine _ _ = _, H2 : quicktype_engine _ _ = _ |- _ =>
        pose proof (eq_trans (eq_sym H1) H2) as Heq;
        first [discriminate Heq | injection Heq as ->]
    end;
    repeat split; cbn; destruct (isEmpty (selection editor)); reflexivity.
Qed.

Lemma engine_outcome_witness :
  messages (trace (snd (pasteAsTypes (Fixture.host (inr "{}") None (Some "Point"))
                          (Fixture.editorOf "swift" true 4 0 0) "schema" false
                          (initial "text"))))
  = ["only JSON samples are rendered here"].
Proof.
  exact (proj1 (proj2 (engine_outcome_of_run
                  (Fixture.host (inr "{}") None (Some "Point"))
                  (Fixture.editorOf "swift" true 4 0 0) "schema" false "text"
                  (engineOptions (Fixture.editorOf "swift" true 4 0 0) "Swift"
                     (SchemaTypeSource "Point" "{}") false)
                  (or_introl eq_refl)))).
Defined.

(** X9.  When the engine renders no line at all, the run still edits: on
    an empty selection the document stays as it was, on any other the
    selected text is removed and nothing put in its place. *)
Theorem empty_output_removes_selection
    (h : Host) (editor : TextEditor) (kind : string) (justTypes : bool)
    (doc : string) (opts : Options) (result : SerializedRenderResult) :
  let w := snd (pasteAsTypes h editor kind justTypes (initial doc)) in
  In opts (engine_calls (trace w)) ->
  quicktype_engine h opts = Rendered result ->
  lines result = [] ->
  length (edits (trace w)) = 1
  /\ document w = take (start (selection editor)) doc +:+ drop (end_ (selection editor)) doc
  /\ (isEmpty (selection editor) = true -> document w = doc).
Proof.
  cbv zeta. intros Hin Hr Hl. run_paths h; cbn in Hin; try contradiction;
    destruct Hin as [<- | []];
    match goal with
    | H : quicktype_engine _ _ = _ |- _ =>
        pose proof (eq_trans (eq_sym H) Hr) as Heq;
        first [discriminate Heq | injection Heq as ->]
    end;
    rewrite Hl, newRange_selection; cbn [JS.join String.concat];
    (split; [reflexivity |]);
    destruct (isEmpty (selection editor)) eqn:E; cbn [applyEdit range_start range_end];
    try rewrite <- (selection_empty _ E);
    (split; [reflexivity |]); intros; try discriminate; apply take_drop.
Qed.

Lemma empty_output_witness :
  document (snd (pasteAsTypes
                   (withEngine (Fixture.host (inr "{}") None (Some "Point"))
                      (fun _ => Rendered (mkResult [])))
                   (Fixture.editorOf "swift" true 4 4 7) "json" true
                   (initial "let old = 1")))
  = "let  = 1".
Proof.
  exact (proj1 (proj2 (empty_output_removes_selection
                  (withEngine (Fixture.host (inr "{}") None (Some "Point"))
                     (fun _ => Rendered (mkResult [])))
                  (Fixture.editorOf "swift" true 4 4 7) "json" true "let old = 1"
                  (engineOptions (Fixture.editorOf "swift" true 4 4 7) "Swift"
                     (JSONTypeSource "Point" ["{}"]) true)
                  (mkResult []) (or_introl eq_refl) eq_refl eq_refl))).
Defined.

(** ** The quick pick *)

(** X10.  The user is asked for a language only when [languageNamed] does
    not know the language of the document, and at most once; what is
    offered then is the display names of the listed languages, each as
    often as it is listed, in ascending order. *)
Theorem quick_pick_offer
    (h : Host) (editor : TextEditor) (kind : string) (justTypes : bool) (doc : string) :
  let w := snd (pasteAsTypes h editor kind justTypes (initial doc)) in
  (forall l, languageNamed h (languageId editor) = Some l -> quickPicks (trace w) = [])
  /\ (languageNamed h (languageId editor) = None ->
      quickPicks (trace w) = [languageChoices h])
  /\ languageChoices h ≡ₚ map displayName (languages h)
  /\ Sorted JS.str_le (languageChoices h).
Proof.
  cbv zeta. split; [| split; [| split]].
  - intros l Hl. run_paths h; congruence || reflexivity.
  - intros Hn. run_paths h; congruence || reflexivity.
  - apply sort_permutation.
  - apply sort_sorted.
Qed.

Lemma quick_pick_offer_witness :
  quickPicks (trace (snd (pasteAsTypes (Fixture.host (inr "{}") None (Some "Point"))
                            (Fixture.editorOf "plaintext" true 4 0 0) "json" true
                            (initial "text"))))
  = [languageChoices (Fixture.host (inr "{}") None (Some "Point"))].
Proof.
  apply (proj1 (proj2 (quick_pick_offer (Fixture.host (inr "{}") None (Some "Point"))
                         (Fixture.editorOf "plaintext" true 4 0 0) "json" true "text"))).
  reflexivity.
Defined.

(** ** What a run depends on *)

(** X11.  The text of the document and the selection decide where the
    output is put and nothing else: two runs that differ in them alone
    end alike, make the same calls in the same order apart from the edit,
    and either both edit or both do not. *)
Theorem run_ignores_document_and_selection
    (h : Host) (editor1 editor2 : TextEditor) (kind : string) (justTypes : bool)
    (doc1 doc2 : string) :
  languageId editor1 = languageId editor2 ->
  options editor1 = options editor2 ->
  let run1 := pasteAsTypes h editor1 kind justTypes (initial doc1) in
  let run2 := pasteAsTypes h editor2 kind justTypes (initial doc2) in
  fst run1 = fst run2
  /\ outside (trace (snd run1)) = outside (trace (snd run2))
  /\ map edit_text (edits (trace (snd run1))) = map edit_text (edits (trace (snd run2))).
Proof.
  intros Hid Hopt. cbv zeta.
  unfold pasteAsTypes, getTargetLanguage, editorIndentation.
  rewrite Hid, Hopt. run_paths h; repeat split; cbn;
    repeat match goal with
           | |- context [isEmpty ?s] => destruct (isEmpty s)
           end; reflexivity.
Qed.

Lemma run_ignores_document_witness :
  outside (trace (snd (pasteAsTypes (Fixture.host (inr "{}") None (Some "Point"))
                         (Fixture.editorOf "swift" true 4 0 0) "json" true (initial "one"))))
  = outside (trace (snd (pasteAsTypes (Fixture.host (inr "{}") None (Some "Point"))
                           (Fixture.editorOf "swift" true 4 2 5) "json" true
                           (initial "another")))).
Proof.
  exact (proj1 (proj2 (run_ignores_document_and_selection
                         (Fixture.host (inr "{}") None (Some "Point"))
                         (Fixture.editorOf "swift" true 4 0 0)
                         (Fixture.editorOf "swift" true 4 2 5) "json" true
                         "one" "another" eq_refl eq_refl))).
Defined.

(** ** Activation *)

Lemma commandId_injective (c1 c2 : Command) : commandId c1 = commandId c2 -> c1 = c2.
Proof. destruct c1, c2; intros H; try reflexivity; discriminate H. Qed.

Lemma registerAll_free (h : Host) (registry : Registry) :
  (forall c, registry !! commandId c = None) ->
  registerAll h allCommands registry
  = (<[commandId PasteTypeScriptAsTypesAndSerialization
        := handler h PasteTypeScriptAsTypesAndSerialization]>
     (<[commandId PasteSchemaAsTypesAndSerialization
         := handler h PasteSchemaAsTypesAndSerialization]>
     (<[commandId PasteSchemaAsTypes := handler h PasteSchemaAsTypes]>
     (<[commandId PasteJSONAsTypesAndSerialization
         := handler h PasteJSONAsTypesAndSerialization]>
     (<[commandId PasteJSONAsTypes := handler h PasteJSONAsTypes]> registry)))),
     Some (map commandId allCommands)).
Proof.
  intros Hfree. unfold allCommands. cbn [registerAll].
  unfold registerTextEditorCommand.
  rewrite (Hfree PasteJSONAsTypes).
  rewrite lookup_insert_ne, (Hfree PasteJSONAsTypesAndSerialization) by discriminate.
  rewrite !lookup_insert_ne, (Hfree PasteSchemaAsTypes) by discriminate.
  rewrite !lookup_insert_ne, (Hfree PasteSchemaAsTypesAndSerialization) by discriminate.
  rewrite !lookup_insert_ne, (Hfree PasteTypeScriptAsTypesAndSerialization) by discriminate.
  reflexivity.
Qed.

(** X12.  When none of the five command identifiers is taken, [activate]
    succeeds: it adds the five disposables to the subscriptions, in the
    order of the commands; each command then runs its own handler; and no
    other command of the registry is touched. *)
Theorem activate_registers
    (h : Host) (subscriptions : list string) (registry : Registry) :
  (forall c, registry !! commandId c = None) ->
  exists registry',
    activate h subscriptions registry
    = (registry', Some (subscriptions ++ map commandId allCommands))
    /\ (forall c editor,
          executeCommand registry' (commandId c) editor = Some (handler h c editor))
    /\ (forall id, (forall c, id <> commandId c) -> registry' !! id = registry !! id).
Proof.
  intros Hfree. unfold activate. rewrite (registerAll_free h registry Hfree).
  eexists. split; [reflexivity |]. split.
  - intros c editor. unfold executeCommand.
    destruct c; cbn [commandId];
      rewrite ?lookup_insert_ne by discriminate; rewrite lookup_insert_eq; reflexivity.
  - intros id Hother.
    rewrite !lookup_insert_ne; [reflexivity | ..]; apply not_eq_sym, Hother.
Qed.

Lemma activate_registers_witness :
  executeCommand (fst (activate (Fixture.host (inr "{}") None None) [] ∅))
    "quicktype.pasteJSONSchemaAsTypes" (Fixture.editorOf "swift" true 4 0 0)
  = Some (pasteAsTypes (Fixture.host (inr "{}") None None)
            (Fixture.editorOf "swift" true 4 0 0) "schema" true).
Proof.
  destruct (activate_registers (Fixture.host (inr "{}") None None) [] ∅
              (fun c => lookup_empty (commandId c))) as (registry' & Hact & Hrun & _).
  rewrite Hact. exact (Hrun PasteSchemaAsTypes (Fixture.editorOf "swift" true 4 0 0)).
Defined.

(** X13.  [activate] throws exactly when one of the five identifiers is
    taken already, and then nothing is added to the subscriptions, while
    the commands that were there before are still there, unchanged. *)
Theorem activate_clash
    (h : Host) (subscriptions : list string) (registry : Registry) :
  (snd (activate h subscriptions registry) = None
   <-> exists c, is_Some (registry !! commandId c))
  /\ (forall id callback, registry !! id = Some callback ->
        fst (activate h subscriptions registry) !! id = Some callback).
Proof.
  unfold activate, allCommands. cbn [registerAll]. unfold registerTextEditorCommand.
  destruct (registry !! commandId PasteJSONAsTypes) as [f1|] eqn:H1;
    [| rewrite lookup_insert_ne by discriminate;
       destruct (registry !! commandId PasteJSONAsTypesAndSerialization) as [f2|] eqn:H2;
       [| rewrite !lookup_insert_ne by discriminate;
          destruct (registry !! commandId PasteSchemaAsTypes) as [f3|] eqn:H3;
          [| rewrite !lookup_insert_ne by discriminate;
             destruct (registry !! commandId PasteSchemaAsTypesAndSerialization)
               as [f4|] eqn:H4;
             [| rewrite !lookup_insert_ne by discriminate;
                destruct (registry !! commandId PasteTypeScriptAsTypesAndSerialization)
                  as [f5|] eqn:H5 ] ] ] ];
    cbn [fst snd option_map].
  all: split;
    [ split;
      [ intros Hnone; try discriminate Hnone;
        first [ exists PasteJSONAsTypes; rewrite H1; eauto; fail
              | exists PasteJSONAsTypesAndSerialization; rewrite H2; eauto; fail
              | exists PasteSchemaAsTypes; rewrite H3; eauto; fail
              | exists PasteSchemaAsTypesAndSerialization; rewrite H4; eauto; fail
              | exists PasteTypeScriptAsTypesAndSerialization; rewrite H5; eauto ]
      | intros [c [f Hc]]; try reflexivity; destruct c; congruence ]
    | intros id callback Hid;
      repeat (rewrite lookup_insert_ne; [| intros <-; congruence]); exact Hid ].
Qed.

Lemma activate_clash_witness :
  snd (activate (Fixture.host (inr "{}") None None) ["other"]
         {[ "quicktype.pasteJSONSchemaAsTypes" := fun _ => ret tt ]})
  = None.
Proof.
  apply (proj1 (activate_clash (Fixture.host (inr "{}") None None) ["other"]
                  {[ "quicktype.pasteJSONSchemaAsTypes" := fun _ => ret tt ]})).
  exists PasteSchemaAsTypes. eexists. apply lookup_singleton_eq.
Defined.

(** ** From a command to the engine *)

Lemma run_reaches_engine (h : Host) (editor : TextEditor) (kind : string)
    (justTypes : bool) (doc : string) (language : Prompted)
    (content typed : string) (source : TypeSource) :
  resolved h editor doc = Normal language -> cancelled language = false ->
  pasteCallback h = inr content ->
  negb (String.eqb kind "typescript") && negb (jsonIsValid h content) = false ->
  inputBoxAnswer h top_level_prompt = Some typed ->
  sourceTable (JS.or_else (Some typed) "TopLevel") content !! kind = Some source ->
  engine_calls (trace (snd (pasteAsTypes h editor kind justTypes (initial doc))))
  = [engineOptions editor (name language) source justTypes].
Proof.
  unfold top_level_prompt. intros Hl Hc Hclip Hguard Ha Hsrc.
  unfold_run.
  destruct (languageNamed h (languageId editor)) as [l|];
    [| destruct (quickPickAnswer h (languageChoices h)) as [s|] ];
    simpl_run; injection Hl as <-; simpl_run; try congruence;
    rewrite Hclip; simpl_run; rewrite Hguard; simpl_run;
    rewrite Ha; simpl_run; rewrite Hsrc; simpl_run;
    match goal with
    | |- context [quicktype_engine h ?o] => destruct (quicktype_engine h o)
    end; reflexivity.
Qed.

(** X14.  Every command [activate] registers gets to the engine once the
    language is resolved, the clipboard is read and passes the check of
    its kind, and the user has answered the name prompt: the branch for an
    unrecognized kind is never taken by a registered command.  The engine
    is called once, in the resolved language, on the text of the
    clipboard. *)
Theorem command_reaches_engine
    (h : Host) (c : Command) (editor : TextEditor) (doc : string)
    (language : Prompted) (content typed : string) :
  resolved h editor doc = Normal language -> cancelled language = false ->
  pasteCallback h = inr content ->
  c = PasteTypeScriptAsTypesAndSerialization \/ jsonIsValid h content = true ->
  inputBoxAnswer h top_level_prompt = Some typed ->
  exists opts source,
    engine_calls (trace (snd (handler h c editor (initial doc)))) = [opts]
    /\ lang opts = name language
    /\ sources opts = [source]
    /\ sourceTexts source = [content]
    /\ In (sourceKind source) ["json"; "schema"; "typescript"].
Proof.
  intros Hl Hc Hclip Hvalid Ha.
  assert (Hjson : forall kind, kind <> "typescript" -> c <> PasteTypeScriptAsTypesAndSerialization ->
            negb (String.eqb kind "typescript") && negb (jsonIsValid h content) = false).
  { intros kind _ Hne. destruct Hvalid as [-> | ->]; [congruence | apply andb_false_r]. }
  destruct c; cbn [handler];
    (erewrite run_reaches_engine;
     [ do 2 eexists; split; [reflexivity |];
       split; [reflexivity |]; split; [reflexivity |]; split
     | eassumption | assumption | eassumption
     | first [ apply Hjson; discriminate | reflexivity ]
     | eassumption
     | first [ apply sourceTable_json | apply sourceTable_schema
             | apply sourceTable_typescript ] ]);
    cbn [sourceTexts sourceKind In]; try reflexivity; try tauto.
  now rewrite map_to_list_singleton.
Qed.

Lemma command_reaches_engine_witness :
  exists opts source,
    engine_calls (trace (snd (handler (Fixture.host (inr "{}") None (Some "Point"))
                                PasteSchemaAsTypes
                                (Fixture.editorOf "swift" true 4 0 0) (initial "text"))))
    = [opts]
    /\ lang opts = "Swift"
    /\ sources opts = [source]
    /\ sourceTexts source = ["{}"]
    /\ In (sourceKind source) ["json"; "schema"; "typescript"].
Proof.
  apply (command_reaches_engine (Fixture.host (inr "{}") None (Some "Point"))
           PasteSchemaAsTypes (Fixture.editorOf "swift" true 4 0 0) "text"
           (mkPrompted false "Swift") "{}" "Point");
    try reflexivity.
  right. reflexivity.
Defined.
